(** * Object-storage backends of [image_handler_commons.storage]

    A shallow embedding of [storage.py]: the abstract class
    [BaseStorageBackend] with its two template methods ([put_object],
    [delete_object]) and its key policy ([generate_object_key]), and the
    concrete class [S3StorageBackend] that adapts the interface onto a boto3
    client.

    Coroutines are modelled sequentially, as state transformers that either
    return a value or raise: [await] is the monadic bind, and
    [asyncio.to_thread f] runs [f] to completion and hands back whatever [f]
    returned or raised.  Scheduling, threads and cancellation are not part of
    the model. *)

From Stdlib Require Import Strings.Ascii Strings.String Strings.Byte List Arith Lia.
From stdpp Require Import base option list strings gmap.

Local Open Scope string_scope.
Local Open Scope list_scope.
Local Open Scope nat_scope.

(** ** Exceptions *)

(** Classes of exceptions that are not defined in [storage.py]: the two the
    module names in its [except] clauses, and every other class by name.
    In botocore [NoSuchKey] derives from [ClientError]; [ClientError] here
    stands for that class and its subclasses other than [NoSuchKey], and
    [OtherClass] for the classes outside that hierarchy. *)
Inductive exc_class : Type :=
| ClientError
| NoSuchKey
| OtherClass (name : string).

Definition issubclass (c d : exc_class) : bool :=
  match c, d with
  | ClientError, ClientError => true
  | NoSuchKey, NoSuchKey => true
  | NoSuchKey, ClientError => true
  | OtherClass a, OtherClass b => String.eqb a b
  | _, _ => false
  end.

(** What a coroutine of the module can raise: the builtin
    [FileNotFoundError] (raised without arguments), the module's own
    [StorageError] with its message, or an exception object that was raised
    by the client (or by a hook of a subclass) and is travelling up the stack
    as it is. *)
Inductive exception : Type :=
| FileNotFoundError
| StorageError (msg : string)
| Foreign (cls : exc_class) (msg : string).

(** [isinstance e c] for the classes that occur in [except] clauses. *)
Definition isinstance (e : exception) (c : exc_class) : bool :=
  match e with
  | Foreign cls _ => issubclass cls c
  | _ => false
  end.

(** [str(e)], what an f-string interpolates for [{e}]. *)
Definition str (e : exception) : string :=
  match e with
  | FileNotFoundError => ""
  | StorageError msg => msg
  | Foreign _ msg => msg
  end.

(** [e] is an instance of the builtin [FileNotFoundError]: the one the
    module raises itself, or an exception object of that class that was
    raised elsewhere and reaches the caller as it is.  A caller's
    [except FileNotFoundError] catches both. *)
Definition is_file_not_found (e : exception) : bool :=
  match e with
  | FileNotFoundError => true
  | Foreign (OtherClass name) _ => String.eqb name "FileNotFoundError"
  | _ => false
  end.

(** ** The coroutine monad *)

Inductive outcome (A : Type) : Type :=
| Return (a : A)
| Raise (e : exception).
Arguments Return {A} a.
Arguments Raise {A} e.

Definition M (St A : Type) : Type := St → outcome A * St.

#[global] Instance M_ret {St} : MRet (M St) :=
  λ A a s, (Return a, s).

#[global] Instance M_bind {St} : MBind (M St) :=
  λ A B f m s,
    match m s with
    | (Return a, s') => f a s'
    | (Raise e, s') => (Raise e, s')
    end.

Definition raise {St A} (e : exception) : M St A :=
  λ s, (Raise e, s).

(** [try: body / except ...: handler]: [handlers e] is the body of the first
    [except] clause that matches [e], if any. *)
Definition try_except {St A} (body : M St A)
    (handlers : exception → option (M St A)) : M St A :=
  λ s,
    match body s with
    | (Return a, s') => (Return a, s')
    | (Raise e, s') =>
        match handlers e with
        | Some h => h s'
        | None => (Raise e, s')
        end
    end.

(** [await asyncio.to_thread(f, ...)]. *)
Definition to_thread {St A} (f : M St A) : M St A := f.

(** ** Values *)

Record BytesIO : Type := mkBytesIO { getvalue : list byte }.

(** What the caller of a public coroutine gets back. *)
Inductive value : Type :=
| VNone
| VStr (s : string)
| VBytesIO (b : BytesIO).

(** ** [secrets.token_hex] *)

(** The operating system's random source, one byte at a time. *)
Class Entropy (St : Type) := urandom_byte : St → byte * St.

Fixpoint token_bytes `{Entropy St} (nbytes : nat) (s : St) : list byte * St :=
  match nbytes with
  | O => ([], s)
  | S n =>
      let (b, s1) := urandom_byte s in
      let (bs, s2) := token_bytes n s1 in
      (b :: bs, s2)
  end.

Definition hexdigits : string := "0123456789abcdef".

Definition hex_digit (n : nat) : ascii :=
  match String.get n hexdigits with
  | Some c => c
  | None => "?"%char
  end.

Definition hex_of_byte (b : byte) : string :=
  String (hex_digit (Byte.to_nat b / 16))
    (String (hex_digit (Byte.to_nat b mod 16)) EmptyString).

Fixpoint hexlify (bs : list byte) : string :=
  match bs with
  | [] => ""
  | b :: rest => hex_of_byte b +:+ hexlify rest
  end.

Definition token_hex `{Entropy St} (nbytes : nat) : M St string :=
  λ s, let (bs, s') := token_bytes nbytes s in (Return (hexlify bs), s').

(** ** [class BaseStorageBackend(ABC)] *)

(** The overridable methods of the class, as a method table over the state
    [St] the coroutines run in (the instance's attributes and the world
    outside).  [put_object] and [delete_object] below are the template
    methods written in terms of it. *)
Record BaseStorageBackend (St : Type) : Type := {
  get_object : string → M St BytesIO;
  generate_object_key : string → M St string;
  perform_put_object : BytesIO → string → M St unit;
  post_put_object : string → M St unit;
  perform_delete_object : string → M St unit;
  post_delete_object : string → M St unit
}.
Arguments get_object {St} _ _ _.
Arguments generate_object_key {St} _ _ _.
Arguments perform_put_object {St} _ _ _ _.
Arguments post_put_object {St} _ _ _.
Arguments perform_delete_object {St} _ _ _.
Arguments post_delete_object {St} _ _ _.

Definition put_object {St} (self : BaseStorageBackend St)
    (obj : BytesIO) (filename : string) : M St value :=
  key ← generate_object_key self filename;
  _ ← perform_put_object self obj key;
  _ ← post_put_object self key;
  mret VNone.

Definition delete_object {St} (self : BaseStorageBackend St)
    (key : string) : M St value :=
  _ ← perform_delete_object self key;
  _ ← post_delete_object self key;
  mret VNone.

(** The bodies the base class gives to its non-abstract methods. *)
Definition base_generate_object_key `{Entropy St} (filename : string)
    : M St string :=
  tok ← token_hex 16;
  mret (tok +:+ "-" +:+ filename).

Definition base_post_put_object {St} (key : string) : M St unit := mret tt.

Definition base_post_delete_object {St} (key : string) : M St unit := mret tt.

(** ** [class S3StorageBackend(BaseStorageBackend)] *)

(** The part of a boto3 S3 client the module calls.  [W] is everything the
    client can reach: the remote store and the network. *)
Inductive client_result (A : Type) : Type :=
| Ok (a : A)
| Fail (cls : exc_class) (msg : string).
Arguments Ok {A} a.
Arguments Fail {A} cls msg.

(** What [client.get_object] hands back, with the body already read in full:
    reading the response's body counts as part of the client's call. *)
Record response : Type := { Body : list byte }.

Record S3Client (W : Type) : Type := {
  client_get_object : string → string → W → client_result response * W;
  client_put_object : string → string → BytesIO → W → client_result unit * W;
  client_delete_object : string → string → W → client_result unit * W
}.
Arguments client_get_object {W} _ _ _ _.
Arguments client_put_object {W} _ _ _ _ _.
Arguments client_delete_object {W} _ _ _ _.

(** An instance ([self.client], [self.bucket_name]) together with the world
    its client talks to. *)
Record S3State (W : Type) : Type := mkS3State {
  client : S3Client W;
  bucket_name : string;
  outside : W
}.
Arguments mkS3State {W} _ _ _.
Arguments client {W} _.
Arguments bucket_name {W} _.
Arguments outside {W} _.

(** [__init__]: [boto3_client kwargs] stands for
    [boto3.client("s3", **connection_kwargs)]. *)
Definition S3_init {W} (boto3_client : list (string * string) → S3Client W)
    (connection_kwargs : list (string * string)) (bucket_name : string)
    (w : W) : S3State W :=
  mkS3State (boto3_client connection_kwargs) bucket_name w.

(** A call [self.client.<op>(Bucket=self.bucket_name, ...)]. *)
Definition call_client {W A}
    (op : S3Client W → string → W → client_result A * W) : M (S3State W) A :=
  λ s,
    let (r, w') := op (client s) (bucket_name s) (outside s) in
    (match r with
     | Ok a => Return a
     | Fail cls msg => Raise (Foreign cls msg)
     end,
     mkS3State (client s) (bucket_name s) w').

#[global] Instance S3State_entropy `{Entropy W} : Entropy (S3State W) :=
  λ s, let (b, w') := urandom_byte (outside s) in
       (b, mkS3State (client s) (bucket_name s) w').

Definition _get_object_sync {W} (key : string) : M (S3State W) BytesIO :=
  response ← try_except
    (call_client (λ c bucket, client_get_object c bucket key))
    (λ e,
       if isinstance e NoSuchKey then Some (raise FileNotFoundError)
       else if isinstance e ClientError then
         Some (raise (StorageError
           ("Error while getting object (key: " +:+ key +:+ "). Error: " +:+ str e)))
       else None);
  mret (mkBytesIO (Body response)).

Definition S3_get_object {W} (key : string) : M (S3State W) BytesIO :=
  obj ← to_thread (_get_object_sync key);
  mret obj.

Definition S3_perform_put_object {W} (obj : BytesIO) (key : string)
    : M (S3State W) unit :=
  try_except
    (to_thread (call_client (λ c bucket, client_put_object c bucket key obj)))
    (λ e,
       if isinstance e ClientError then
         Some (raise (StorageError
           ("Error while putting object (key: " +:+ key +:+ "). Error: " +:+ str e)))
       else None).

Definition S3_perform_delete_object {W} (key : string) : M (S3State W) unit :=
  try_except
    (to_thread (call_client (λ c bucket, client_delete_object c bucket key)))
    (λ e,
       if isinstance e ClientError then
         Some (raise (StorageError
           ("Error while deleting object (key: " +:+ key +:+ "). Error: " +:+ str e)))
       else None).

Definition S3StorageBackend `{Entropy W} : BaseStorageBackend (S3State W) := {|
  get_object := S3_get_object;
  generate_object_key := base_generate_object_key;
  perform_put_object := S3_perform_put_object;
  post_put_object := base_post_put_object;
  perform_delete_object := S3_perform_delete_object;
  post_delete_object := base_post_delete_object
|}.

(** A subclass that overrides the two hooks and inherits everything else. *)
Definition with_hooks {St} (base : BaseStorageBackend St)
    (post_put post_delete : string → M St unit) : BaseStorageBackend St := {|
  get_object := get_object base;
  generate_object_key := generate_object_key base;
  perform_put_object := perform_put_object base;
  post_put_object := post_put;
  perform_delete_object := perform_delete_object base;
  post_delete_object := post_delete
|}.

(** ** Recording which methods a template method invokes *)

Inductive method_call : Type :=
| CallGetObject (key : string)
| CallGenerateObjectKey (filename : string)
| CallPerformPutObject (obj : BytesIO) (key : string)
| CallPostPutObject (key : string)
| CallPerformDeleteObject (key : string)
| CallPostDeleteObject (key : string).

(** [Enter c] when the call starts, [Leave c ok] when it has finished, with
    [ok] telling whether it returned ([true]) or raised ([false]). *)
Inductive event : Type :=
| Enter (c : method_call)
| Leave (c : method_call) (ok : bool).

Definition returned {A} (r : outcome A) : bool :=
  match r with
  | Return _ => true
  | Raise _ => false
  end.

Definition recorded {St A} (c : method_call) (m : M St A)
    : M (St * list event) A :=
  λ sl,
    let (r, s') := m sl.1 in
    (r, (s', sl.2 ++ [Enter c; Leave c (returned r)])).

(** The subclass of [self] in which every overridable method records its own
    invocation and then does what [self] does. *)
Definition traced {St} (self : BaseStorageBackend St)
    : BaseStorageBackend (St * list event) := {|
  get_object key := recorded (CallGetObject key) (get_object self key);
  generate_object_key filename :=
    recorded (CallGenerateObjectKey filename) (generate_object_key self filename);
  perform_put_object obj key :=
    recorded (CallPerformPutObject obj key) (perform_put_object self obj key);
  post_put_object key :=
    recorded (CallPostPutObject key) (post_put_object self key);
  perform_delete_object key :=
    recorded (CallPerformDeleteObject key) (perform_delete_object self key);
  post_delete_object key :=
    recorded (CallPostDeleteObject key) (post_delete_object self key)
|}.

(** ** The public operations, for statements about all three *)

Inductive operation : Type :=
| Get (key : string)
| Put (obj : BytesIO) (filename : string)
| Delete (key : string).

(** One call of a public coroutine of [self]. *)
Definition run {St} (self : BaseStorageBackend St) (op : operation)
    : M St value :=
  match op with
  | Get key => obj ← get_object self key; mret (VBytesIO obj)
  | Put obj filename => put_object self obj filename
  | Delete key => delete_object self key
  end.

(** The key an operation of the S3 backend sends to the client when started
    in [s]: the caller's key, or for a put the key generated first. *)
Definition target_key `{Entropy W} (op : operation) (s : S3State W) : string :=
  match op with
  | Get key => key
  | Put _ filename =>
      match (generate_object_key S3StorageBackend filename s).1 with
      | Return key => key
      | Raise _ => ""
      end
  | Delete key => key
  end.

Definition failure_of {A} (r : client_result A) : option (exc_class * string) :=
  match r with
  | Ok _ => None
  | Fail cls msg => Some (cls, msg)
  end.

(** The exception the client raises for the request of [op], if it raises. *)
Definition client_failure `{Entropy W} (op : operation) (s : S3State W)
    : option (exc_class * string) :=
  match op with
  | Get key =>
      failure_of (client_get_object (client s) (bucket_name s) key (outside s)).1
  | Put obj filename =>
      let s1 := (generate_object_key S3StorageBackend filename s).2 in
      failure_of
        (client_put_object (client s1) (bucket_name s1) (target_key op s) obj
           (outside s1)).1
  | Delete key =>
      failure_of (client_delete_object (client s) (bucket_name s) key (outside s)).1
  end.

(** ** Key format *)

Definition is_lower_hex (c : ascii) : bool :=
  let n := nat_of_ascii c in
  ((48 <=? n) && (n <=? 57)) || ((97 <=? n) && (n <=? 102)).

Fixpoint all_lower_hex (s : string) : bool :=
  match s with
  | EmptyString => true
  | String c rest => is_lower_hex c && all_lower_hex rest
  end.

(** [key] matches [^[0-9a-f]{32}-<filename>$], the file name taken
    literally. *)
Definition key_matches (filename key : string) : bool :=
  all_lower_hex (String.substring 0 32 key)
  && (32 <=? String.length key)
  && String.eqb (String.substring 32 (String.length key - 32) key)
       ("-" +:+ filename).

(** [sub] occurs in [s]. *)
Definition contains (s sub : string) : Prop :=
  ∃ before after, s = before +:+ sub +:+ after.

(** ** An in-memory stand-in for the remote store

    The boto3 client and the S3 service are not part of the repository.
    [mem_client] is a test double with S3's observable behaviour: objects
    live under (bucket, key); fetching a missing key fails with [NoSuchKey];
    deleting a missing key succeeds; while [outage] is set every request
    fails with that exception. *)
Record MemWorld : Type := mkMemWorld {
  objects : gmap (string * string) (list byte);
  outage : option (exc_class * string);
  tape : nat → byte;
  tape_pos : nat
}.

#[global] Instance MemWorld_entropy : Entropy MemWorld :=
  λ w, (tape w (tape_pos w),
        mkMemWorld (objects w) (outage w) (tape w) (S (tape_pos w))).

Definition no_such_key_message : string :=
  "An error occurred (NoSuchKey) when calling the GetObject operation: The specified key does not exist.".

Definition mem_get_object (bucket key : string) (w : MemWorld)
    : client_result response * MemWorld :=
  match outage w with
  | Some (cls, msg) => (Fail cls msg, w)
  | None =>
      match objects w !! (bucket, key) with
      | Some payload => (Ok {| Body := payload |}, w)
      | None => (Fail NoSuchKey no_such_key_message, w)
      end
  end.

Definition mem_put_object (bucket key : string) (body : BytesIO) (w : MemWorld)
    : client_result unit * MemWorld :=
  match outage w with
  | Some (cls, msg) => (Fail cls msg, w)
  | None =>
      (Ok tt,
       mkMemWorld (<[(bucket, key) := getvalue body]> (objects w))
         (outage w) (tape w) (tape_pos w))
  end.

Definition mem_delete_object (bucket key : string) (w : MemWorld)
    : client_result unit * MemWorld :=
  match outage w with
  | Some (cls, msg) => (Fail cls msg, w)
  | None =>
      (Ok tt,
       mkMemWorld (delete (bucket, key) (objects w))
         (outage w) (tape w) (tape_pos w))
  end.

Definition mem_client : S3Client MemWorld := {|
  client_get_object := mem_get_object;
  client_put_object := mem_put_object;
  client_delete_object := mem_delete_object
|}.

(** Concrete worlds and instances used in the examples. *)
Definition zero_tape : nat → byte := λ _, x00.

Definition counting_tape : nat → byte :=
  λ i, match Byte.of_nat (i mod 256) with Some b => b | None => x00 end.

Definition empty_world : MemWorld := mkMemWorld ∅ None counting_tape 0.

Definition network_down : MemWorld :=
  mkMemWorld ∅
    (Some (OtherClass "EndpointConnectionError",
           "Could not connect to the endpoint URL"))
    counting_tape 0.

Definition access_denied : MemWorld :=
  mkMemWorld ∅
    (Some (ClientError,
           "An error occurred (AccessDenied) when calling the operation: Access Denied"))
    counting_tape 0.

Definition missing_file : MemWorld :=
  mkMemWorld ∅
    (Some (OtherClass "FileNotFoundError",
           "[Errno 2] No such file or directory"))
    counting_tape 0.

Definition images (w : MemWorld) : S3State MemWorld :=
  S3_init (λ _, mem_client) [] "images" w.

Definition png : BytesIO := mkBytesIO [x89; x50; x4e; x47].

(** A hook stubbed to raise. *)
Definition failing_hook {St} (key : string) : M St unit :=
  raise (Foreign (OtherClass "RuntimeError") "hook failed").

(** A client whose store hands back what was put: after a successful
    upload under (bucket, key), fetching (bucket, key) yields that body. *)
Definition stores_what_is_put {W} (c : S3Client W) : Prop :=
  ∀ bucket key body w w',
    client_put_object c bucket key body w = (Ok tt, w') →
    client_get_object c bucket key w' = (Ok {| Body := getvalue body |}, w').

(** Further behaviour of an S3-like store, as assumptions on a client:
    a successful delete leaves the key missing; an upload under one key
    leaves the reply for every other key as it was; and drawing random bytes
    does not change what the store replies. *)
Definition missing_after_delete {W} (c : S3Client W) : Prop :=
  ∀ bucket key w w',
    client_delete_object c bucket key w = (Ok tt, w') →
    ∃ msg, (client_get_object c bucket key w').1 = Fail NoSuchKey msg.

Definition put_keeps_other_keys {W} (c : S3Client W) : Prop :=
  ∀ bucket key key' body w w',
    key ≠ key' →
    client_put_object c bucket key body w = (Ok tt, w') →
    (client_get_object c bucket key' w').1 = (client_get_object c bucket key' w).1.

Definition urandom_keeps_replies `{Entropy W} (c : S3Client W) : Prop :=
  ∀ bucket key w,
    (client_get_object c bucket key (urandom_byte w).2).1
      = (client_get_object c bucket key w).1.

(** ** Recording the requests a client receives *)

Inductive request : Type :=
| GetObject (Bucket Key : string)
| PutObject (Bucket Key : string) (Body : BytesIO)
| DeleteObject (Bucket Key : string).

(** The client [c] with a log of the requests made to it, oldest first. *)
Definition spy {W} (c : S3Client W) : S3Client (W * list request) := {|
  client_get_object bucket key wl :=
    let (r, w') := client_get_object c bucket key wl.1 in
    (r, (w', wl.2 ++ [GetObject bucket key]));
  client_put_object bucket key body wl :=
    let (r, w') := client_put_object c bucket key body wl.1 in
    (r, (w', wl.2 ++ [PutObject bucket key body]));
  client_delete_object bucket key wl :=
    let (r, w') := client_delete_object c bucket key wl.1 in
    (r, (w', wl.2 ++ [DeleteObject bucket key]))
|}.

#[global] Instance spied_entropy `{Entropy W} : Entropy (W * list request) :=
  λ wl, let (b, w') := urandom_byte wl.1 in (b, (w', wl.2)).

(** The word each operation puts into its [StorageError] message. *)
Definition verb (op : operation) : string :=
  match op with
  | Get _ => "getting"
  | Put _ _ => "putting"
  | Delete _ => "deleting"
  end.

Definition is_get (op : operation) : bool :=
  match op with
  | Get _ => true
  | _ => false
  end.

(** * Properties *)

(** ** Strings *)

Lemma string_app_cons (c : ascii) (a b : string) :
  String c a +:+ b = String c (a +:+ b).
Proof. reflexivity. Qed.

Lemma string_app_nil (b : string) : "" +:+ b = b.
Proof. reflexivity. Qed.

Lemma string_length_app (a b : string) :
  String.length (a +:+ b) = String.length a + String.length b.
Proof.
  induction a as [|c a IH]; [reflexivity |].
  rewrite string_app_cons. cbn [String.length]. now rewrite IH.
Qed.

Lemma string_app_assoc (a b c : string) : (a +:+ b) +:+ c = a +:+ b +:+ c.
Proof.
  induction a as [|x a IH]; [reflexivity |].
  rewrite !string_app_cons. now rewrite IH.
Qed.

Lemma string_app_inv (a a' b b' : string) :
  String.length a = String.length a' →
  a +:+ b = a' +:+ b' → a = a' ∧ b = b'.
Proof.
  revert a'. induction a as [|c a IH]; intros [|c' a'] Hlen Heq;
    try discriminate Hlen.
  - now split.
  - rewrite !string_app_cons in Heq.
    injection Heq as -> Heq. injection Hlen as Hlen.
    destruct (IH a' Hlen Heq) as [-> ->]. now split.
Qed.

Lemma substring_whole (a : string) : String.substring 0 (String.length a) a = a.
Proof.
  induction a as [|c a IH]; [reflexivity |].
  cbn [String.length String.substring]. now rewrite IH.
Qed.

Lemma substring_app_prefix (a b : string) :
  String.substring 0 (String.length a) (a +:+ b) = a.
Proof.
  induction a as [|c a IH].
  - rewrite string_app_nil. now destruct b.
  - rewrite string_app_cons. cbn [String.length String.substring].
    now rewrite IH.
Qed.

Lemma substring_app_suffix (a b : string) :
  String.substring (String.length a) (String.length b) (a +:+ b) = b.
Proof.
  induction a as [|c a IH].
  - rewrite string_app_nil. apply substring_whole.
  - rewrite string_app_cons. cbn [String.length String.substring]. exact IH.
Qed.

Lemma all_lower_hex_app (a b : string) :
  all_lower_hex (a +:+ b) = all_lower_hex a && all_lower_hex b.
Proof.
  induction a as [|c a IH]; [reflexivity |].
  rewrite string_app_cons. cbn [all_lower_hex]. now rewrite IH, andb_assoc.
Qed.

(** ** Hexadecimal tokens *)

Lemma hex_of_byte_length (b : byte) : String.length (hex_of_byte b) = 2.
Proof. reflexivity. Qed.

Lemma hex_of_byte_lower (b : byte) : all_lower_hex (hex_of_byte b) = true.
Proof. destruct b; vm_compute; reflexivity. Qed.

Lemma hex_digit_inj (n m : nat) :
  n < 16 → m < 16 → hex_digit n = hex_digit m → n = m.
Proof.
  intros Hn Hm.
  do 16 (destruct n as [|n];
         [ do 16 (destruct m as [|m];
                  [ vm_compute; first [reflexivity | discriminate] |]); lia |]).
  lia.
Qed.

Lemma to_nat_inj (a b : byte) : Byte.to_nat a = Byte.to_nat b → a = b.
Proof.
  intros Heq.
  assert (Some a = Some b) as Hs
    by (rewrite <- (Byte.of_to_nat a), <- (Byte.of_to_nat b); now rewrite Heq).
  now injection Hs.
Qed.

Lemma hex_of_byte_inj (a b : byte) : hex_of_byte a = hex_of_byte b → a = b.
Proof.
  unfold hex_of_byte. intros Heq.
  assert (hex_digit (Byte.to_nat a / 16) = hex_digit (Byte.to_nat b / 16))
    as Hhi by congruence.
  assert (hex_digit (Byte.to_nat a mod 16) = hex_digit (Byte.to_nat b mod 16))
    as Hlo by congruence.
  clear Heq.
  pose proof (Byte.to_nat_bounded a) as Ha.
  pose proof (Byte.to_nat_bounded b) as Hb.
  apply hex_digit_inj in Hhi;
    [| apply Nat.Div0.div_lt_upper_bound; lia
     | apply Nat.Div0.div_lt_upper_bound; lia ].
  apply hex_digit_inj in Hlo;
    [| apply Nat.mod_upper_bound; lia | apply Nat.mod_upper_bound; lia ].
  apply to_nat_inj.
  rewrite (Nat.div_mod_eq (Byte.to_nat a) 16), (Nat.div_mod_eq (Byte.to_nat b) 16).
  now rewrite Hhi, Hlo.
Qed.

Lemma hexlify_length (bs : list byte) :
  String.length (hexlify bs) = 2 * length bs.
Proof.
  induction bs as [|b bs IH]; [reflexivity |].
  cbn [hexlify length]. rewrite string_length_app, hex_of_byte_length, IH. lia.
Qed.

Lemma hexlify_lower (bs : list byte) : all_lower_hex (hexlify bs) = true.
Proof.
  induction bs as [|b bs IH]; [reflexivity |].
  cbn [hexlify]. now rewrite all_lower_hex_app, hex_of_byte_lower, IH.
Qed.

Lemma hexlify_inj (xs ys : list byte) : hexlify xs = hexlify ys → xs = ys.
Proof.
  revert ys. induction xs as [|x xs IH]; intros [|y ys] Heq.
  - reflexivity.
  - discriminate Heq.
  - discriminate Heq.
  - cbn [hexlify] in Heq.
    apply string_app_inv in Heq as [Hb Hrest]; [| reflexivity].
    apply hex_of_byte_inj in Hb as ->. now rewrite (IH ys Hrest).
Qed.

Lemma token_bytes_length `{Entropy St} (n : nat) (s : St) :
  length (token_bytes n s).1 = n.
Proof.
  revert s. induction n as [|n IH]; intros s; [reflexivity |].
  cbn [token_bytes]. destruct (urandom_byte s) as [b s1].
  specialize (IH s1). destruct (token_bytes n s1) as [bs s2].
  simpl in *. now rewrite IH.
Qed.

Lemma base_generate_object_key_eq `{Entropy St} (filename : string) (s : St) :
  base_generate_object_key filename s =
    (Return (hexlify (token_bytes 16 s).1 +:+ "-" +:+ filename),
     (token_bytes 16 s).2).
Proof.
  unfold base_generate_object_key, mbind, M_bind, token_hex, mret, M_ret.
  now destruct (token_bytes 16 s).
Qed.

Lemma key_matches_intro (filename hex : string) :
  String.length hex = 32 → all_lower_hex hex = true →
  key_matches filename (hex +:+ "-" +:+ filename) = true.
Proof.
  intros Hlen Hhex. unfold key_matches. rewrite <- Hlen.
  rewrite substring_app_prefix, Hhex, string_length_app.
  replace (String.length hex + String.length ("-" +:+ filename)
           - String.length hex)
    with (String.length ("-" +:+ filename)) by lia.
  rewrite substring_app_suffix, String.eqb_refl, andb_true_r.
  apply Nat.leb_le. lia.
Qed.

(** ** The template methods, step by step *)

Lemma bind_eq {St A B} (m : M St A) (f : A → M St B) (s : St) :
  (m ≫= f) s =
    match m s with
    | (Return a, s') => f a s'
    | (Raise e, s') => (Raise e, s')
    end.
Proof. reflexivity. Qed.

Lemma put_object_eq {St} (self : BaseStorageBackend St)
    (obj : BytesIO) (filename : string) (s : St) :
  put_object self obj filename s =
    match generate_object_key self filename s with
    | (Raise e, s1) => (Raise e, s1)
    | (Return key, s1) =>
        match perform_put_object self obj key s1 with
        | (Raise e, s2) => (Raise e, s2)
        | (Return _, s2) =>
            match post_put_object self key s2 with
            | (Raise e, s3) => (Raise e, s3)
            | (Return _, s3) => (Return VNone, s3)
            end
        end
    end.
Proof.
  unfold put_object. rewrite bind_eq.
  destruct (generate_object_key self filename s) as [[key|e] s1]; [| reflexivity].
  rewrite bind_eq.
  destruct (perform_put_object self obj key s1) as [[[]|e] s2]; [| reflexivity].
  rewrite bind_eq.
  now destruct (post_put_object self key s2) as [[[]|e] s3].
Qed.

Lemma delete_object_eq {St} (self : BaseStorageBackend St)
    (key : string) (s : St) :
  delete_object self key s =
    match perform_delete_object self key s with
    | (Raise e, s1) => (Raise e, s1)
    | (Return _, s1) =>
        match post_delete_object self key s1 with
        | (Raise e, s2) => (Raise e, s2)
        | (Return _, s2) => (Return VNone, s2)
        end
    end.
Proof.
  unfold delete_object. rewrite bind_eq.
  destruct (perform_delete_object self key s) as [[[]|e] s1]; [| reflexivity].
  rewrite bind_eq.
  now destruct (post_delete_object self key s1) as [[[]|e] s2].
Qed.

Lemma recorded_eq {St A} (c : method_call) (m : M St A)
    (s : St) (log : list event) :
  recorded c m (s, log) =
    ((m s).1, ((m s).2, log ++ [Enter c; Leave c (returned (m s).1)])).
Proof. unfold recorded. simpl. now destruct (m s). Qed.

(** ** C1: what [put_object] hands back *)

(** C1 (as amended): for every backend, blob and file name, a call of
    [put_object] that returns, returns [None]; the key generated in its
    first step is the one given to [perform_put_object] and then to
    [post_put_object], and it is not part of the returned value. *)
Theorem put_object_returns_None {St} (self : BaseStorageBackend St)
    (obj : BytesIO) (filename : string) (s s' : St) (v : value) :
  put_object self obj filename s = (Return v, s') →
  v = VNone ∧
  ∃ key s1 s2,
    generate_object_key self filename s = (Return key, s1) ∧
    perform_put_object self obj key s1 = (Return tt, s2) ∧
    post_put_object self key s2 = (Return tt, s').
Proof.
  rewrite put_object_eq.
  destruct (generate_object_key self filename s) as [[key|e] s1];
    [| discriminate].
  destruct (perform_put_object self obj key s1) as [[[]|e] s2] eqn:Hput;
    [| discriminate].
  destruct (post_put_object self key s2) as [[[]|e] s3] eqn:Hpost;
    [| discriminate].
  intros [= <- <-]. split; [reflexivity |].
  exists key, s1, s2. now rewrite Hput, Hpost.
Qed.

(** C1 fails as stated: on the S3 backend over an empty store the key
    generated for ["photo.jpg"] is a string, and the successful call of
    [put_object] returns [None], which is not that key. *)
Lemma put_object_returns_key_counterexample :
  (generate_object_key S3StorageBackend "photo.jpg" (images empty_world)).1
    = Return "000102030405060708090a0b0c0d0e0f-photo.jpg"
  ∧ (put_object S3StorageBackend png "photo.jpg" (images empty_world)).1
    = Return VNone
  ∧ VNone ≠ VStr "000102030405060708090a0b0c0d0e0f-photo.jpg".
Proof. repeat split; [vm_compute; reflexivity .. | discriminate]. Qed.

Lemma put_object_returns_None_witness :
  VNone = VNone ∧
  ∃ key s1 s2,
    generate_object_key S3StorageBackend "photo.jpg" (images empty_world)
      = (Return key, s1) ∧
    perform_put_object S3StorageBackend png key s1 = (Return tt, s2) ∧
    post_put_object S3StorageBackend key s2
      = (Return tt,
         (put_object S3StorageBackend png "photo.jpg" (images empty_world)).2).
Proof.
  apply (put_object_returns_None S3StorageBackend png "photo.jpg"
           (images empty_world)).
  vm_compute. reflexivity.
Defined.

(** ** C6, C7: the key policy *)

(** C6: for every file name, [generate_object_key] returns 32 lowercase
    hexadecimal characters, then one ['-'], then the file name unmodified;
    the key matches [^[0-9a-f]{32}-<filename>$], in particular for
    ["photo.jpg"]. *)
Theorem generate_object_key_format `{Entropy St} (filename : string) (s : St) :
  ∃ hex key,
    (base_generate_object_key filename s).1 = Return key ∧
    key = hex +:+ "-" +:+ filename ∧
    String.length hex = 32 ∧
    all_lower_hex hex = true ∧
    key_matches filename key = true.
Proof.
  exists (hexlify (token_bytes 16 s).1), (hexlify (token_bytes 16 s).1 +:+ "-" +:+ filename).
  assert (String.length (hexlify (token_bytes 16 s).1) = 32) as Hlen
    by now rewrite hexlify_length, token_bytes_length.
  rewrite base_generate_object_key_eq. repeat split.
  - exact Hlen.
  - apply hexlify_lower.
  - apply key_matches_intro; [exact Hlen | apply hexlify_lower].
Qed.

Example generate_object_key_photo :
  ∃ key,
    (generate_object_key S3StorageBackend "photo.jpg" (images empty_world)).1
      = Return key ∧
    key = "000102030405060708090a0b0c0d0e0f-photo.jpg" ∧
    key_matches "photo.jpg" key = true ∧
    key_matches "photo.jpg" "000102030405060708090A0B0C0D0E0F-photo.jpg" = false ∧
    key_matches "photo.jpg" "000102030405060708090a0b0c0d0e0f-photoXjpg" = false.
Proof.
  exists "000102030405060708090a0b0c0d0e0f-photo.jpg".
  split; [| split; [| split; [| split]]]; vm_compute; reflexivity.
Qed.

(** C7: two calls of [generate_object_key] with the same file name (started
    in any two states) whose 16-byte tokens differ return different keys,
    and each key ends with the file name unmodified. *)
Theorem generate_object_key_distinct `{Entropy St} (filename : string)
    (s1 s2 : St) (k1 k2 : string) :
  (base_generate_object_key filename s1).1 = Return k1 →
  (base_generate_object_key filename s2).1 = Return k2 →
  (token_bytes 16 s1).1 ≠ (token_bytes 16 s2).1 →
  k1 ≠ k2 ∧
  (∃ prefix, k1 = prefix +:+ filename) ∧
  (∃ prefix, k2 = prefix +:+ filename).
Proof.
  rewrite !base_generate_object_key_eq. cbn [fst].
  generalize (token_bytes_length 16 s1), (token_bytes_length 16 s2).
  generalize (token_bytes 16 s1).1, (token_bytes 16 s2).1.
  intros t1 t2 Hlen1 Hlen2 Hk1 Hk2 Hne.
  assert (k1 = hexlify t1 +:+ "-" +:+ filename) as -> by congruence.
  assert (k2 = hexlify t2 +:+ "-" +:+ filename) as -> by congruence.
  clear Hk1 Hk2. repeat split.
  - intros Heq. apply Hne.
    apply string_app_inv in Heq as [Heq _].
    + now apply hexlify_inj.
    + rewrite !hexlify_length. congruence.
  - exists (hexlify t1 +:+ "-"). now rewrite string_app_assoc.
  - exists (hexlify t2 +:+ "-"). now rewrite string_app_assoc.
Qed.

Lemma generate_object_key_distinct_witness :
  "000102030405060708090a0b0c0d0e0f-photo.jpg"
    ≠ "101112131415161718191a1b1c1d1e1f-photo.jpg" ∧
  (∃ prefix,
     "000102030405060708090a0b0c0d0e0f-photo.jpg" = prefix +:+ "photo.jpg") ∧
  (∃ prefix,
     "101112131415161718191a1b1c1d1e1f-photo.jpg" = prefix +:+ "photo.jpg").
Proof.
  apply (generate_object_key_distinct "photo.jpg" (images empty_world)
           (base_generate_object_key "photo.jpg" (images empty_world)).2).
  - vm_compute. reflexivity.
  - vm_compute. reflexivity.
  - vm_compute. discriminate.
Defined.

(** ** The S3 methods in terms of the client's replies *)

Lemma S3_get_object_eq {W} (key : string) (s : S3State W) :
  S3_get_object key s =
    let (r, w') := client_get_object (client s) (bucket_name s) key (outside s) in
    (match r with
     | Ok resp => Return (mkBytesIO (Body resp))
     | Fail cls msg =>
         if issubclass cls NoSuchKey then Raise FileNotFoundError
         else if issubclass cls ClientError then
           Raise (StorageError
             ("Error while getting object (key: " +:+ key +:+ "). Error: " +:+ msg))
         else Raise (Foreign cls msg)
     end,
     mkS3State (client s) (bucket_name s) w').
Proof.
  unfold S3_get_object, to_thread, _get_object_sync.
  rewrite !bind_eq. unfold try_except, call_client.
  destruct (client_get_object (client s) (bucket_name s) key (outside s))
    as [[resp|cls msg] w']; [reflexivity |].
  cbn [isinstance str].
  destruct (issubclass cls NoSuchKey); [reflexivity |].
  destruct (issubclass cls ClientError); reflexivity.
Qed.

Lemma S3_perform_put_object_eq {W} (obj : BytesIO) (key : string)
    (s : S3State W) :
  S3_perform_put_object obj key s =
    let (r, w') :=
      client_put_object (client s) (bucket_name s) key obj (outside s) in
    (match r with
     | Ok _ => Return tt
     | Fail cls msg =>
         if issubclass cls ClientError then
           Raise (StorageError
             ("Error while putting object (key: " +:+ key +:+ "). Error: " +:+ msg))
         else Raise (Foreign cls msg)
     end,
     mkS3State (client s) (bucket_name s) w').
Proof.
  unfold S3_perform_put_object, to_thread, try_except, call_client.
  destruct (client_put_object (client s) (bucket_name s) key obj (outside s))
    as [[[]|cls msg] w']; [reflexivity |].
  cbn [isinstance str].
  destruct (issubclass cls ClientError); reflexivity.
Qed.

Lemma S3_perform_delete_object_eq {W} (key : string) (s : S3State W) :
  S3_perform_delete_object key s =
    let (r, w') :=
      client_delete_object (client s) (bucket_name s) key (outside s) in
    (match r with
     | Ok _ => Return tt
     | Fail cls msg =>
         if issubclass cls ClientError then
           Raise (StorageError
             ("Error while deleting object (key: " +:+ key +:+ "). Error: " +:+ msg))
         else Raise (Foreign cls msg)
     end,
     mkS3State (client s) (bucket_name s) w').
Proof.
  unfold S3_perform_delete_object, to_thread, try_except, call_client.
  destruct (client_delete_object (client s) (bucket_name s) key (outside s))
    as [[[]|cls msg] w']; [reflexivity |].
  cbn [isinstance str].
  destruct (issubclass cls ClientError); reflexivity.
Qed.

Lemma S3_delete_object_eq `{Entropy W} (key : string) (s : S3State W) :
  delete_object S3StorageBackend key s =
    let (r, w') :=
      client_delete_object (client s) (bucket_name s) key (outside s) in
    (match r with
     | Ok _ => Return VNone
     | Fail cls msg =>
         if issubclass cls ClientError then
           Raise (StorageError
             ("Error while deleting object (key: " +:+ key +:+ "). Error: " +:+ msg))
         else Raise (Foreign cls msg)
     end,
     mkS3State (client s) (bucket_name s) w').
Proof.
  rewrite delete_object_eq.
  change (perform_delete_object S3StorageBackend key s)
    with (S3_perform_delete_object key s).
  rewrite S3_perform_delete_object_eq.
  destruct (client_delete_object (client s) (bucket_name s) key (outside s))
    as [[[]|cls msg] w']; [reflexivity |].
  destruct (issubclass cls ClientError); reflexivity.
Qed.

(** ** The instance's attributes are not assigned after construction *)

Lemma S3_token_bytes_frame `{Entropy W} (n : nat) (s : S3State W) :
  client (token_bytes n s).2 = client s ∧
  bucket_name (token_bytes n s).2 = bucket_name s.
Proof.
  revert s. induction n as [|n IH]; intros s; [now split |].
  cbn [token_bytes].
  change (urandom_byte s)
    with (let (b, w') := urandom_byte (outside s) in
          (b, mkS3State (client s) (bucket_name s) w')).
  destruct (urandom_byte (outside s)) as [b w'].
  specialize (IH (mkS3State (client s) (bucket_name s) w')).
  destruct (token_bytes n (mkS3State (client s) (bucket_name s) w')) as [bs s2].
  exact IH.
Qed.

Lemma S3_generate_object_key_frame `{Entropy W} (filename : string)
    (s : S3State W) :
  client (generate_object_key S3StorageBackend filename s).2 = client s ∧
  bucket_name (generate_object_key S3StorageBackend filename s).2
    = bucket_name s.
Proof.
  change (generate_object_key S3StorageBackend filename s)
    with (base_generate_object_key filename s).
  rewrite base_generate_object_key_eq. apply S3_token_bytes_frame.
Qed.

Lemma S3_get_object_frame {W} (key : string) (s : S3State W) :
  client (S3_get_object key s).2 = client s ∧
  bucket_name (S3_get_object key s).2 = bucket_name s.
Proof.
  rewrite S3_get_object_eq.
  now destruct (client_get_object (client s) (bucket_name s) key (outside s)).
Qed.

Lemma S3_perform_put_object_frame {W} (obj : BytesIO) (key : string)
    (s : S3State W) :
  client (S3_perform_put_object obj key s).2 = client s ∧
  bucket_name (S3_perform_put_object obj key s).2 = bucket_name s.
Proof.
  rewrite S3_perform_put_object_eq.
  now destruct (client_put_object (client s) (bucket_name s) key obj (outside s)).
Qed.

Lemma S3_put_object_frame `{Entropy W} (obj : BytesIO) (filename : string)
    (s : S3State W) :
  client (put_object S3StorageBackend obj filename s).2 = client s ∧
  bucket_name (put_object S3StorageBackend obj filename s).2 = bucket_name s.
Proof.
  rewrite put_object_eq.
  pose proof (S3_generate_object_key_frame filename s) as Hgen.
  destruct (generate_object_key S3StorageBackend filename s) as [[key|e] s1];
    [| exact Hgen].
  change (perform_put_object S3StorageBackend obj key s1)
    with (S3_perform_put_object obj key s1).
  pose proof (S3_perform_put_object_frame obj key s1) as Hput.
  destruct (S3_perform_put_object obj key s1) as [[[]|e] s2];
    cbn [snd] in *; destruct Hgen, Hput.
  - change (post_put_object S3StorageBackend key s2) with (Return tt, s2).
    cbn [snd]. split; congruence.
  - split; congruence.
Qed.

Lemma S3_delete_object_frame `{Entropy W} (key : string) (s : S3State W) :
  client (delete_object S3StorageBackend key s).2 = client s ∧
  bucket_name (delete_object S3StorageBackend key s).2 = bucket_name s.
Proof.
  rewrite S3_delete_object_eq.
  now destruct (client_delete_object (client s) (bucket_name s) key (outside s)).
Qed.

Lemma S3_put_object_eq `{Entropy W} (obj : BytesIO) (filename : string)
    (s : S3State W) :
  put_object S3StorageBackend obj filename s =
    let key := hexlify (token_bytes 16 s).1 +:+ "-" +:+ filename in
    let s1 := (token_bytes 16 s).2 in
    let (r, w') :=
      client_put_object (client s1) (bucket_name s1) key obj (outside s1) in
    (match r with
     | Ok _ => Return VNone
     | Fail cls msg =>
         if issubclass cls ClientError then
           Raise (StorageError
             ("Error while putting object (key: " +:+ key +:+ "). Error: " +:+ msg))
         else Raise (Foreign cls msg)
     end,
     mkS3State (client s1) (bucket_name s1) w').
Proof.
  rewrite put_object_eq.
  change (generate_object_key S3StorageBackend filename s)
    with (base_generate_object_key filename s).
  rewrite base_generate_object_key_eq. cbv zeta.
  set (key := hexlify (token_bytes 16 s).1 +:+ "-" +:+ filename).
  set (s1 := (token_bytes 16 s).2).
  change (perform_put_object S3StorageBackend obj key s1)
    with (S3_perform_put_object obj key s1).
  rewrite S3_perform_put_object_eq.
  destruct (client_put_object (client s1) (bucket_name s1) key obj (outside s1))
    as [[[]|cls msg] w']; [reflexivity |].
  destruct (issubclass cls ClientError); reflexivity.
Qed.

Lemma S3_run_frame `{Entropy W} (op : operation) (s : S3State W) :
  client (run S3StorageBackend op s).2 = client s ∧
  bucket_name (run S3StorageBackend op s).2 = bucket_name s.
Proof.
  destruct op as [key|obj filename|key]; cbn [run].
  - rewrite bind_eq.
    change (get_object S3StorageBackend key s) with (S3_get_object key s).
    pose proof (S3_get_object_frame key s) as Hget.
    now destruct (S3_get_object key s) as [[b|e] s1].
  - apply S3_put_object_frame.
  - apply S3_delete_object_frame.
Qed.

(** ** Substrings of the error messages *)

Lemma string_app_nil_r (a : string) : a +:+ "" = a.
Proof.
  induction a as [|c a IH]; [reflexivity |].
  now rewrite string_app_cons, IH.
Qed.

Lemma contains_middle (a b c : string) : contains (a +:+ b +:+ c) b.
Proof. now exists a, c. Qed.

Lemma contains_end (a b : string) : contains (a +:+ b) b.
Proof. exists a, "". now rewrite string_app_nil_r. Qed.

Lemma message_contains (verb key cause : string) :
  let msg := verb +:+ key +:+ "). Error: " +:+ cause in
  contains msg key ∧ contains msg cause.
Proof.
  split.
  - apply contains_middle.
  - unfold contains. exists (verb +:+ key +:+ "). Error: "), "".
    now rewrite string_app_nil_r, !string_app_assoc.
Qed.

(** ** C2: error mapping of [get_object] *)

(** C2 (as amended): on the S3 backend [get_object] returns the full payload
    when the client returns a response; raises [FileNotFoundError] when the
    client raises its [NoSuchKey]; raises [StorageError] (with the key and
    the client's message) when the client raises another [ClientError]; and
    lets an exception of any other class through as it is.  So the
    exception that reaches the caller is a [FileNotFoundError] exactly when
    the client raised [NoSuchKey] or itself raised a [FileNotFoundError]. *)
Theorem S3_get_object_error_mapping `{Entropy W} (key : string)
    (s : S3State W) :
  let reply :=
    (client_get_object (client s) (bucket_name s) key (outside s)).1 in
  let result := (get_object S3StorageBackend key s).1 in
  (∀ resp, reply = Ok resp → result = Return (mkBytesIO (Body resp))) ∧
  (∀ msg, reply = Fail NoSuchKey msg → result = Raise FileNotFoundError) ∧
  (∀ msg, reply = Fail ClientError msg →
     result = Raise (StorageError
       ("Error while getting object (key: " +:+ key +:+ "). Error: " +:+ msg))) ∧
  (∀ name msg, reply = Fail (OtherClass name) msg →
     result = Raise (Foreign (OtherClass name) msg)) ∧
  (∀ e, result = Raise e →
     (is_file_not_found e = true ↔
      ∃ cls msg, reply = Fail cls msg ∧
        (cls = NoSuchKey ∨ cls = OtherClass "FileNotFoundError"))).
Proof.
  cbv zeta.
  change (get_object S3StorageBackend key s) with (S3_get_object key s).
  rewrite S3_get_object_eq.
  destruct (client_get_object (client s) (bucket_name s) key (outside s))
    as [[resp|cls msg] w']; cbn [fst].
  - split; [now intros resp' [= <-] |].
    repeat (split; [discriminate |]). discriminate.
  - split; [discriminate |].
    destruct cls as [| |name]; cbn [issubclass].
    + split; [discriminate |]. split; [now intros m [= <-] |].
      split; [discriminate |].
      intros e [= <-]. cbn [is_file_not_found]. split; [discriminate |].
      intros (cls & m & [= <- _] & [Hcls | Hcls]); discriminate Hcls.
    + split; [reflexivity |]. split; [discriminate |].
      split; [discriminate |].
      intros e [= <-]. cbn [is_file_not_found]. split; [| reflexivity].
      intros _. exists NoSuchKey, msg. split; [reflexivity | now left].
    + split; [discriminate |]. split; [discriminate |].
      split; [now intros name' m [= <- <-] |].
      intros e [= <-]. cbn [is_file_not_found]. rewrite String.eqb_eq. split.
      * intros ->. exists (OtherClass "FileNotFoundError"), msg.
        split; [reflexivity | now right].
      * intros (cls & m & [= <- _] & [Hcls | Hcls]);
          [discriminate Hcls | now injection Hcls].
Qed.

(** C2 fails as stated, in both halves.  When the network is down the client
    raises an [EndpointConnectionError], which is a failure but not a
    [ClientError]: [get_object] raises that exception, not [StorageError].
    And when the client itself raises a [FileNotFoundError], that exception
    reaches the caller although the client did not report a missing key. *)
Lemma S3_get_object_network_error_counterexample :
  (client_get_object mem_client "images" "k" network_down).1
    = Fail (OtherClass "EndpointConnectionError")
        "Could not connect to the endpoint URL"
  ∧ (get_object S3StorageBackend "k" (images network_down)).1
    = Raise (Foreign (OtherClass "EndpointConnectionError")
               "Could not connect to the endpoint URL")
  ∧ (∀ msg, (get_object S3StorageBackend "k" (images network_down)).1
            ≠ Raise (StorageError msg))
  ∧ (client_get_object mem_client "images" "k" missing_file).1
    = Fail (OtherClass "FileNotFoundError")
        "[Errno 2] No such file or directory"
  ∧ (get_object S3StorageBackend "k" (images missing_file)).1
    = Raise (Foreign (OtherClass "FileNotFoundError")
               "[Errno 2] No such file or directory")
  ∧ is_file_not_found
      (Foreign (OtherClass "FileNotFoundError")
         "[Errno 2] No such file or directory") = true.
Proof.
  split; [vm_compute; reflexivity |].
  split; [vm_compute; reflexivity |].
  split; [intros msg; vm_compute; discriminate |].
  split; [vm_compute; reflexivity |].
  split; vm_compute; reflexivity.
Qed.

Example get_object_missing_key :
  (get_object S3StorageBackend "nonexistent-key" (images empty_world)).1
    = Raise FileNotFoundError.
Proof. vm_compute. reflexivity. Qed.

Example get_object_access_denied :
  (get_object S3StorageBackend "k" (images access_denied)).1
    = Raise (StorageError
        "Error while getting object (key: k). Error: An error occurred (AccessDenied) when calling the operation: Access Denied").
Proof. vm_compute. reflexivity. Qed.

Example put_then_get_round_trip :
  (get_object S3StorageBackend "000102030405060708090a0b0c0d0e0f-a.png"
     (put_object S3StorageBackend png "a.png" (images empty_world)).2).1
    = Return png.
Proof. vm_compute. reflexivity. Qed.

(** ** C5: [delete_object] on the S3 backend *)

(** C5 (as amended): on the S3 backend [delete_object] has no not-found
    mapping: it turns no exception of the client into [FileNotFoundError],
    not even [NoSuchKey], so a [FileNotFoundError] reaches the caller only
    when the client's call itself raised one.  It returns whenever the
    client's delete call returns, so when the client answers a second delete
    of the same key with success the second [delete_object] returns too; a
    [ClientError] from the client surfaces as [StorageError], and an
    exception of any other class passes through as it is. *)
Theorem S3_delete_object_outcomes `{Entropy W} (key : string)
    (s : S3State W) :
  let reply :=
    client_delete_object (client s) (bucket_name s) key (outside s) in
  let after := mkS3State (client s) (bucket_name s) reply.2 in
  let result := (delete_object S3StorageBackend key s).1 in
  (∀ e, result = Raise e → is_file_not_found e = true →
     ∃ msg, reply.1 = Fail (OtherClass "FileNotFoundError") msg ∧
            e = Foreign (OtherClass "FileNotFoundError") msg) ∧
  (reply.1 = Ok tt →
     delete_object S3StorageBackend key s = (Return VNone, after)) ∧
  (reply.1 = Ok tt →
   (client_delete_object (client s) (bucket_name s) key reply.2).1 = Ok tt →
     (delete_object S3StorageBackend key after).1 = Return VNone) ∧
  (∀ cls msg, reply.1 = Fail cls msg → issubclass cls ClientError = true →
     result = Raise (StorageError
       ("Error while deleting object (key: " +:+ key +:+ "). Error: " +:+ msg))) ∧
  (∀ cls msg, reply.1 = Fail cls msg → issubclass cls ClientError = false →
     result = Raise (Foreign cls msg)).
Proof.
  cbv zeta. rewrite !S3_delete_object_eq. cbn [client bucket_name outside].
  destruct (client_delete_object (client s) (bucket_name s) key (outside s))
    as [[[]|cls msg] w']; cbn [fst snd].
  - split; [discriminate |]. split; [reflexivity |].
    split; [| split; discriminate].
    intros _.
    destruct (client_delete_object (client s) (bucket_name s) key w')
      as [[[]|cls msg] w'']; cbn [fst]; [reflexivity | discriminate].
  - split; [| split; [discriminate |]; split; [discriminate |]; split].
    + destruct cls as [| |name]; cbn [issubclass];
        intros e [= <-]; cbn [is_file_not_found]; try discriminate.
      rewrite String.eqb_eq. intros ->. now exists msg.
    + intros cls' msg' [= <- <-] ->. reflexivity.
    + intros cls' msg' [= <- <-] ->. reflexivity.
Qed.

(** C5 fails as stated, in both halves.  When the network is down the
    client's delete call raises an [EndpointConnectionError];
    [delete_object] raises that exception, so the failure does not surface
    as [StorageError].  And when the client's call itself raises a
    [FileNotFoundError], [delete_object] raises it. *)
Lemma S3_delete_object_network_error_counterexample :
  (client_delete_object mem_client "images" "k" network_down).1
    = Fail (OtherClass "EndpointConnectionError")
        "Could not connect to the endpoint URL"
  ∧ (delete_object S3StorageBackend "k" (images network_down)).1
    = Raise (Foreign (OtherClass "EndpointConnectionError")
               "Could not connect to the endpoint URL")
  ∧ (∀ msg, (delete_object S3StorageBackend "k" (images network_down)).1
            ≠ Raise (StorageError msg))
  ∧ (delete_object S3StorageBackend "k" (images missing_file)).1
    = Raise (Foreign (OtherClass "FileNotFoundError")
               "[Errno 2] No such file or directory")
  ∧ is_file_not_found
      (Foreign (OtherClass "FileNotFoundError")
         "[Errno 2] No such file or directory") = true.
Proof.
  split; [vm_compute; reflexivity |].
  split; [vm_compute; reflexivity |].
  split; [intros msg; vm_compute; discriminate |].
  split; vm_compute; reflexivity.
Qed.

Lemma S3_delete_object_outcomes_witness :
  delete_object S3StorageBackend "k" (images empty_world)
    = (Return VNone, images empty_world)
  ∧ (delete_object S3StorageBackend "k" (images empty_world)).1
    = Return VNone
  ∧ ∃ msg,
      (client_delete_object mem_client "images" "k" missing_file).1
        = Fail (OtherClass "FileNotFoundError") msg ∧
      (delete_object S3StorageBackend "k" (images missing_file)).1
        = Raise (Foreign (OtherClass "FileNotFoundError") msg).
Proof.
  destruct (S3_delete_object_outcomes "k" (images empty_world))
    as (_ & Hfirst & Hsecond & _).
  destruct (S3_delete_object_outcomes "k" (images missing_file))
    as (Honly & _).
  split; [rewrite Hfirst; vm_compute; reflexivity |].
  split; [apply Hsecond; vm_compute; reflexivity |].
  destruct (Honly (Foreign (OtherClass "FileNotFoundError")
                     "[Errno 2] No such file or directory"))
    as (msg & Hreply & Hsame); [vm_compute; reflexivity | reflexivity |].
  exists msg. split; [exact Hreply |].
  rewrite <- Hsame. vm_compute. reflexivity.
Defined.

(** With the in-memory store, deleting twice in a row succeeds both times,
    whether or not the key was there. *)
Lemma mem_delete_object_twice (key : string) (w : MemWorld) :
  outage w = None →
  ∃ s1 s2,
    delete_object S3StorageBackend key (images w) = (Return VNone, s1) ∧
    delete_object S3StorageBackend key s1 = (Return VNone, s2) ∧
    objects (outside s2) !! ("images", key) = None.
Proof.
  destruct w as [objs out tp pos]. cbn [outage]. intros ->.
  rewrite S3_delete_object_eq.
  cbn [images S3_init client bucket_name outside mem_client
       client_delete_object].
  unfold mem_delete_object at 1. cbn [outage objects tape tape_pos].
  eexists _, _. split; [reflexivity |].
  rewrite S3_delete_object_eq.
  cbn [client bucket_name outside mem_client client_delete_object].
  unfold mem_delete_object. cbn [outage objects tape tape_pos].
  split; [reflexivity |]. cbn [outside objects].
  rewrite lookup_delete_eq. reflexivity.
Qed.

(** ** C8: what a [StorageError] carries *)

(** C8: whenever a get, put or delete on the S3 backend raises
    [StorageError], the client raised a [ClientError] for that request, and
    the error's message contains both the key of the operation and the
    client's message. *)
Theorem S3_storage_error_payload `{Entropy W} (op : operation)
    (s : S3State W) (msg : string) :
  (run S3StorageBackend op s).1 = Raise (StorageError msg) →
  ∃ cls cause,
    client_failure op s = Some (cls, cause) ∧
    issubclass cls ClientError = true ∧
    contains msg (target_key op s) ∧
    contains msg cause.
Proof.
  destruct op as [key|obj filename|key]; cbn [run client_failure target_key].
  - rewrite bind_eq.
    change (get_object S3StorageBackend key s) with (S3_get_object key s).
    rewrite S3_get_object_eq.
    destruct (client_get_object (client s) (bucket_name s) key (outside s))
      as [[resp|cls cause] w']; cbn [fst failure_of]; [discriminate |].
    destruct (issubclass cls NoSuchKey) eqn:Hnf; [discriminate |].
    destruct (issubclass cls ClientError) eqn:Hce; [| discriminate].
    intros [= <-]. exists cls, cause.
    repeat split; [exact Hce | apply message_contains ..].
  - rewrite S3_put_object_eq. cbv zeta.
    change (generate_object_key S3StorageBackend filename s)
      with (base_generate_object_key filename s).
    rewrite base_generate_object_key_eq. cbn [fst snd].
    set (key := hexlify (token_bytes 16 s).1 +:+ "-" +:+ filename).
    set (s1 := (token_bytes 16 s).2).
    destruct (client_put_object (client s1) (bucket_name s1) key obj (outside s1))
      as [[[]|cls cause] w']; cbn [fst failure_of]; [discriminate |].
    destruct (issubclass cls ClientError) eqn:Hce; [| discriminate].
    intros [= <-]. exists cls, cause.
    repeat split; [exact Hce | apply message_contains ..].
  - rewrite S3_delete_object_eq.
    destruct (client_delete_object (client s) (bucket_name s) key (outside s))
      as [[[]|cls cause] w']; cbn [fst failure_of]; [discriminate |].
    destruct (issubclass cls ClientError) eqn:Hce; [| discriminate].
    intros [= <-]. exists cls, cause.
    repeat split; [exact Hce | apply message_contains ..].
Qed.

Lemma S3_storage_error_payload_witness :
  ∃ cls cause,
    client_failure (Put png "photo.jpg") (images access_denied)
      = Some (cls, cause) ∧
    issubclass cls ClientError = true ∧
    contains
      "Error while putting object (key: 000102030405060708090a0b0c0d0e0f-photo.jpg). Error: An error occurred (AccessDenied) when calling the operation: Access Denied"
      (target_key (Put png "photo.jpg") (images access_denied)) ∧
    contains
      "Error while putting object (key: 000102030405060708090a0b0c0d0e0f-photo.jpg). Error: An error occurred (AccessDenied) when calling the operation: Access Denied"
      cause.
Proof.
  apply (S3_storage_error_payload (Put png "photo.jpg") (images access_denied)).
  vm_compute. reflexivity.
Defined.

(** ** C9: exceptions the module does not translate *)

(** C9: on the S3 backend an exception raised by the client whose class is
    not [ClientError] (nor, for get, the not-found class) reaches the caller
    of [get_object], [perform_put_object] and [perform_delete_object] as the
    same exception object: it becomes neither [StorageError] nor
    [FileNotFoundError]. *)
Theorem S3_other_exceptions_propagate `{Entropy W} (obj : BytesIO)
    (key : string) (s : S3State W) (cls : exc_class) (msg : string) :
  issubclass cls ClientError = false →
  issubclass cls NoSuchKey = false →
  ((client_get_object (client s) (bucket_name s) key (outside s)).1
     = Fail cls msg →
   (get_object S3StorageBackend key s).1 = Raise (Foreign cls msg)) ∧
  ((client_put_object (client s) (bucket_name s) key obj (outside s)).1
     = Fail cls msg →
   (perform_put_object S3StorageBackend obj key s).1
     = Raise (Foreign cls msg)) ∧
  ((client_delete_object (client s) (bucket_name s) key (outside s)).1
     = Fail cls msg →
   (perform_delete_object S3StorageBackend key s).1
     = Raise (Foreign cls msg)).
Proof.
  intros Hce Hnf. repeat split.
  - change (get_object S3StorageBackend key s) with (S3_get_object key s).
    rewrite S3_get_object_eq.
    destruct (client_get_object (client s) (bucket_name s) key (outside s))
      as [r w']; cbn [fst].
    intros ->. now rewrite Hnf, Hce.
  - change (perform_put_object S3StorageBackend obj key s)
      with (S3_perform_put_object obj key s).
    rewrite S3_perform_put_object_eq.
    destruct (client_put_object (client s) (bucket_name s) key obj (outside s))
      as [r w']; cbn [fst].
    intros ->. now rewrite Hce.
  - change (perform_delete_object S3StorageBackend key s)
      with (S3_perform_delete_object key s).
    rewrite S3_perform_delete_object_eq.
    destruct (client_delete_object (client s) (bucket_name s) key (outside s))
      as [r w']; cbn [fst].
    intros ->. now rewrite Hce.
Qed.

Lemma S3_other_exceptions_propagate_witness :
  (get_object S3StorageBackend "k" (images network_down)).1
    = Raise (Foreign (OtherClass "EndpointConnectionError")
               "Could not connect to the endpoint URL")
  ∧ (perform_put_object S3StorageBackend png "k" (images network_down)).1
    = Raise (Foreign (OtherClass "EndpointConnectionError")
               "Could not connect to the endpoint URL")
  ∧ (perform_delete_object S3StorageBackend "k" (images network_down)).1
    = Raise (Foreign (OtherClass "EndpointConnectionError")
               "Could not connect to the endpoint URL").
Proof.
  destruct (S3_other_exceptions_propagate png "k" (images network_down)
              (OtherClass "EndpointConnectionError")
              "Could not connect to the endpoint URL"
              eq_refl eq_refl) as (Hget & Hput & Hdelete).
  split; [apply Hget | split; [apply Hput | apply Hdelete]];
    vm_compute; reflexivity.
Defined.

(** ** C10: the instance is not mutated *)

(** C10: [__init__] assigns the client and the bucket name, and every
    [get_object], [put_object] and [delete_object] call on the S3 backend
    leaves both attributes as they were. *)
Theorem S3_attributes_unchanged `{Entropy W}
    (boto3_client : list (string * string) → S3Client W)
    (connection_kwargs : list (string * string)) (bucket : string) (w : W)
    (op : operation) (s : S3State W) :
  client (S3_init boto3_client connection_kwargs bucket w)
    = boto3_client connection_kwargs ∧
  bucket_name (S3_init boto3_client connection_kwargs bucket w) = bucket ∧
  client (run S3StorageBackend op s).2 = client s ∧
  bucket_name (run S3StorageBackend op s).2 = bucket_name s.
Proof.
  split; [reflexivity |]. split; [reflexivity |]. apply S3_run_frame.
Qed.

(** ** C3: the steps of the template methods, in order *)

Lemma traced_put_object_eq {St} (self : BaseStorageBackend St)
    (obj : BytesIO) (filename : string) (s : St) (log : list event) :
  put_object (traced self) obj filename (s, log) =
    match generate_object_key self filename s with
    | (Raise e, s1) =>
        (Raise e,
         (s1, log ++ [Enter (CallGenerateObjectKey filename);
                      Leave (CallGenerateObjectKey filename) false]))
    | (Return key, s1) =>
        match perform_put_object self obj key s1 with
        | (Raise e, s2) =>
            (Raise e,
             (s2, log ++ [Enter (CallGenerateObjectKey filename);
                          Leave (CallGenerateObjectKey filename) true;
                          Enter (CallPerformPutObject obj key);
                          Leave (CallPerformPutObject obj key) false]))
        | (Return _, s2) =>
            let (r, s3) := post_put_object self key s2 in
            (match r with Return _ => Return VNone | Raise e => Raise e end,
             (s3, log ++ [Enter (CallGenerateObjectKey filename);
                          Leave (CallGenerateObjectKey filename) true;
                          Enter (CallPerformPutObject obj key);
                          Leave (CallPerformPutObject obj key) true;
                          Enter (CallPostPutObject key);
                          Leave (CallPostPutObject key) (returned r)]))
        end
    end.
Proof.
  rewrite put_object_eq.
  cbn [traced generate_object_key perform_put_object post_put_object].
  rewrite recorded_eq.
  destruct (generate_object_key self filename s) as [[key|e] s1];
    cbn [fst snd returned]; [| reflexivity].
  rewrite recorded_eq.
  destruct (perform_put_object self obj key s1) as [[[]|e] s2];
    cbn [fst snd returned]; rewrite <- app_assoc; [| reflexivity].
  rewrite recorded_eq.
  destruct (post_put_object self key s2) as [[[]|e] s3];
    cbn [fst snd returned]; rewrite <- app_assoc; reflexivity.
Qed.

Lemma traced_delete_object_eq {St} (self : BaseStorageBackend St)
    (key : string) (s : St) (log : list event) :
  delete_object (traced self) key (s, log) =
    match perform_delete_object self key s with
    | (Raise e, s1) =>
        (Raise e,
         (s1, log ++ [Enter (CallPerformDeleteObject key);
                      Leave (CallPerformDeleteObject key) false]))
    | (Return _, s1) =>
        let (r, s2) := post_delete_object self key s1 in
        (match r with Return _ => Return VNone | Raise e => Raise e end,
         (s2, log ++ [Enter (CallPerformDeleteObject key);
                      Leave (CallPerformDeleteObject key) true;
                      Enter (CallPostDeleteObject key);
                      Leave (CallPostDeleteObject key) (returned r)]))
    end.
Proof.
  rewrite delete_object_eq.
  cbn [traced perform_delete_object post_delete_object].
  rewrite recorded_eq.
  destruct (perform_delete_object self key s) as [[[]|e] s1];
    cbn [fst snd returned]; [| reflexivity].
  rewrite recorded_eq.
  destruct (post_delete_object self key s1) as [[[]|e] s2];
    cbn [fst snd returned]; rewrite <- app_assoc; reflexivity.
Qed.

(** C3: [put_object] invokes [generate_object_key(filename)], then
    [perform_put_object(obj, key)] with the key just generated, and, once
    that has returned, [post_put_object(key)]; [delete_object] invokes
    [perform_delete_object(key)] and, once that has returned,
    [post_delete_object(key)].  Nothing else is invoked; a step that raises
    ends the sequence there, so a hook never runs before (or without) its
    transfer step.  Recording the calls does not change the outcome. *)
Theorem template_methods_step_order {St} (self : BaseStorageBackend St)
    (obj : BytesIO) (filename key : string) (s : St) (log : list event) :
  let G := CallGenerateObjectKey filename in
  let D := CallPerformDeleteObject key in
  let put := put_object (traced self) obj filename (s, log) in
  let del := delete_object (traced self) key (s, log) in
  (∀ k s1 s2 r s3,
     generate_object_key self filename s = (Return k, s1) →
     perform_put_object self obj k s1 = (Return tt, s2) →
     post_put_object self k s2 = (r, s3) →
     put.2 = (s3, log ++ [Enter G; Leave G true;
                          Enter (CallPerformPutObject obj k);
                          Leave (CallPerformPutObject obj k) true;
                          Enter (CallPostPutObject k);
                          Leave (CallPostPutObject k) (returned r)])) ∧
  (∀ k s1 e s2,
     generate_object_key self filename s = (Return k, s1) →
     perform_put_object self obj k s1 = (Raise e, s2) →
     put.2 = (s2, log ++ [Enter G; Leave G true;
                          Enter (CallPerformPutObject obj k);
                          Leave (CallPerformPutObject obj k) false])) ∧
  (∀ e s1,
     generate_object_key self filename s = (Raise e, s1) →
     put.2 = (s1, log ++ [Enter G; Leave G false])) ∧
  (∀ s1 r s2,
     perform_delete_object self key s = (Return tt, s1) →
     post_delete_object self key s1 = (r, s2) →
     del.2 = (s2, log ++ [Enter D; Leave D true;
                          Enter (CallPostDeleteObject key);
                          Leave (CallPostDeleteObject key) (returned r)])) ∧
  (∀ e s1,
     perform_delete_object self key s = (Raise e, s1) →
     del.2 = (s1, log ++ [Enter D; Leave D false])) ∧
  (put.1, put.2.1) = put_object self obj filename s ∧
  (del.1, del.2.1) = delete_object self key s.
Proof.
  cbv zeta. rewrite traced_put_object_eq, traced_delete_object_eq.
  rewrite put_object_eq, delete_object_eq.
  split; [| split; [| split; [| split; [| split; [| split]]]]].
  - intros k s1 s2 r s3 -> -> ->. reflexivity.
  - intros k s1 e s2 -> ->. reflexivity.
  - intros e s1 ->. reflexivity.
  - intros s1 r s2 -> ->. reflexivity.
  - intros e s1 ->. reflexivity.
  - destruct (generate_object_key self filename s) as [[k|e] s1];
      [| reflexivity].
    destruct (perform_put_object self obj k s1) as [[[]|e] s2];
      [| reflexivity].
    now destruct (post_put_object self k s2) as [[[]|e] s3].
  - destruct (perform_delete_object self key s) as [[[]|e] s1];
      [| reflexivity].
    now destruct (post_delete_object self key s1) as [[[]|e] s2].
Qed.

Example put_object_trace :
  (put_object (traced S3StorageBackend) png "photo.jpg"
     (images empty_world, [])).2.2
  = [Enter (CallGenerateObjectKey "photo.jpg");
     Leave (CallGenerateObjectKey "photo.jpg") true;
     Enter (CallPerformPutObject png "000102030405060708090a0b0c0d0e0f-photo.jpg");
     Leave (CallPerformPutObject png "000102030405060708090a0b0c0d0e0f-photo.jpg") true;
     Enter (CallPostPutObject "000102030405060708090a0b0c0d0e0f-photo.jpg");
     Leave (CallPostPutObject "000102030405060708090a0b0c0d0e0f-photo.jpg") true].
Proof. vm_compute. reflexivity. Qed.

Example put_object_trace_transfer_fails :
  (put_object (traced S3StorageBackend) png "photo.jpg"
     (images access_denied, [])).2.2
  = [Enter (CallGenerateObjectKey "photo.jpg");
     Leave (CallGenerateObjectKey "photo.jpg") true;
     Enter (CallPerformPutObject png "000102030405060708090a0b0c0d0e0f-photo.jpg");
     Leave (CallPerformPutObject png "000102030405060708090a0b0c0d0e0f-photo.jpg") false].
Proof. vm_compute. reflexivity. Qed.

Example delete_object_trace :
  (delete_object (traced S3StorageBackend) "k" (images empty_world, [])).2.2
  = [Enter (CallPerformDeleteObject "k");
     Leave (CallPerformDeleteObject "k") true;
     Enter (CallPostDeleteObject "k");
     Leave (CallPostDeleteObject "k") true].
Proof. vm_compute. reflexivity. Qed.

(** ** C4: a failing post-put hook *)

Lemma mem_client_stores_what_is_put : stores_what_is_put mem_client.
Proof.
  intros bucket key body w w'.
  cbn [mem_client client_put_object client_get_object].
  unfold mem_put_object, mem_get_object.
  destruct w as [objs [[cls msg]|] tp pos]; cbn [outage objects tape tape_pos];
    [discriminate |].
  intros [= <-]. cbn [outage objects]. rewrite lookup_insert_eq.
  reflexivity.
Qed.

(** C4: take a subclass of the S3 backend whose post-put hook raises [e]
    after the transfer has succeeded.  Then [put_object] raises [e] and ends
    in the very state the hook left: it runs nothing after the hook, so
    what the transfer stored is not rolled back.  With a client whose store
    hands back what was put, [get_object] on the generated key returns the
    blob in the state the transfer produced, and still does so after the
    failed [put_object] when the hook did not touch the store or the
    instance. *)
Theorem post_put_failure_keeps_object `{Entropy W}
    (post_put post_delete : string → M (S3State W) unit)
    (obj : BytesIO) (filename key : string) (s s1 s2 s3 : S3State W)
    (e : exception) :
  let backend := with_hooks S3StorageBackend post_put post_delete in
  stores_what_is_put (client s) →
  generate_object_key backend filename s = (Return key, s1) →
  perform_put_object backend obj key s1 = (Return tt, s2) →
  post_put_object backend key s2 = (Raise e, s3) →
  put_object backend obj filename s = (Raise e, s3) ∧
  (get_object backend key s2).1 = Return obj ∧
  (client s3 = client s2 → bucket_name s3 = bucket_name s2 →
   outside s3 = outside s2 →
   (get_object backend key (put_object backend obj filename s).2).1
     = Return obj).
Proof.
  intros backend Hlaw Hgen Hput Hhook.
  assert (put_object backend obj filename s = (Raise e, s3)) as Hraise
    by (rewrite put_object_eq, Hgen, Hput, Hhook; reflexivity).
  assert ((get_object backend key s2).1 = Return obj) as Hstored.
  { change (get_object backend key s2) with (S3_get_object key s2).
    rewrite S3_get_object_eq.
    change (generate_object_key backend filename s)
      with (generate_object_key S3StorageBackend filename s) in Hgen.
    pose proof (S3_generate_object_key_frame filename s) as [Hc1 _].
    rewrite Hgen in Hc1. cbn [snd] in Hc1.
    change (perform_put_object backend obj key s1)
      with (S3_perform_put_object obj key s1) in Hput.
    rewrite S3_perform_put_object_eq in Hput.
    destruct (client_put_object (client s1) (bucket_name s1) key obj (outside s1))
      as [[[]|cls msg] w'] eqn:Hclient.
    - injection Hput as <-. cbn [client bucket_name outside].
      rewrite Hc1 in Hclient |- *.
      rewrite (Hlaw _ _ _ _ _ Hclient). cbn [fst Body].
      now destruct obj.
    - destruct (issubclass cls ClientError); discriminate Hput. }
  split; [exact Hraise |]. split; [exact Hstored |].
  intros Hc Hb Ho. rewrite Hraise. cbn [snd].
  change (get_object backend key s3) with (S3_get_object key s3).
  change (get_object backend key s2) with (S3_get_object key s2) in Hstored.
  rewrite S3_get_object_eq in Hstored |- *.
  now rewrite Hc, Hb, Ho.
Qed.

Lemma post_put_failure_keeps_object_witness :
  put_object (with_hooks S3StorageBackend failing_hook base_post_delete_object)
    png "photo.jpg" (images empty_world)
  = (Raise (Foreign (OtherClass "RuntimeError") "hook failed"),
     (perform_put_object S3StorageBackend png
        "000102030405060708090a0b0c0d0e0f-photo.jpg"
        (generate_object_key S3StorageBackend "photo.jpg"
           (images empty_world)).2).2)
  ∧ (get_object
       (with_hooks S3StorageBackend failing_hook base_post_delete_object)
       "000102030405060708090a0b0c0d0e0f-photo.jpg"
       (put_object
          (with_hooks S3StorageBackend failing_hook base_post_delete_object)
          png "photo.jpg" (images empty_world)).2).1
    = Return png.
Proof.
  destruct (post_put_failure_keeps_object failing_hook base_post_delete_object
           png "photo.jpg" "000102030405060708090a0b0c0d0e0f-photo.jpg"
           (images empty_world)
           (generate_object_key S3StorageBackend "photo.jpg"
              (images empty_world)).2
           (perform_put_object S3StorageBackend png
              "000102030405060708090a0b0c0d0e0f-photo.jpg"
              (generate_object_key S3StorageBackend "photo.jpg"
                 (images empty_world)).2).2
           (perform_put_object S3StorageBackend png
              "000102030405060708090a0b0c0d0e0f-photo.jpg"
              (generate_object_key S3StorageBackend "photo.jpg"
                 (images empty_world)).2).2
           (Foreign (OtherClass "RuntimeError") "hook failed"))
    as (Hraise & _ & Hkept).
  - exact mem_client_stores_what_is_put.
  - vm_compute. reflexivity.
  - vm_compute. reflexivity.
  - vm_compute. reflexivity.
  - split; [exact Hraise | apply Hkept; reflexivity].
Defined.

(** * Further properties of the module *)

(** ** Round trip through the S3 backend *)

(** X1: on the S3 backend, when [put_object] returns and the client's store
    hands back what was put, [get_object] on the key that [put_object]
    generated returns the blob that was stored. *)
Theorem put_then_get_returns_blob `{Entropy W} (obj : BytesIO)
    (filename : string) (s s' : S3State W) :
  stores_what_is_put (client s) →
  put_object S3StorageBackend obj filename s = (Return VNone, s') →
  (get_object S3StorageBackend (target_key (Put obj filename) s) s').1
    = Return obj.
Proof.
  intros Hlaw. rewrite S3_put_object_eq. cbv zeta. cbn [target_key].
  change (generate_object_key S3StorageBackend filename s)
    with (base_generate_object_key filename s).
  rewrite base_generate_object_key_eq. cbn [fst].
  pose proof (S3_token_bytes_frame 16 s) as [Hc _].
  set (key := hexlify (token_bytes 16 s).1 +:+ "-" +:+ filename).
  set (s1 := (token_bytes 16 s).2) in *.
  destruct (client_put_object (client s1) (bucket_name s1) key obj (outside s1))
    as [[[]|cls msg] w'] eqn:Hclient.
  - intros [= <-].
    change (get_object S3StorageBackend key ?st) with (S3_get_object key st).
    rewrite S3_get_object_eq. cbn [client bucket_name outside].
    rewrite Hc in Hclient |- *.
    rewrite (Hlaw _ _ _ _ _ Hclient). cbn [fst Body]. now destruct obj.
  - destruct (issubclass cls ClientError); discriminate.
Qed.

Lemma put_then_get_returns_blob_witness :
  (get_object S3StorageBackend
     (target_key (Put png "a.png") (images empty_world))
     (put_object S3StorageBackend png "a.png" (images empty_world)).2).1
    = Return png.
Proof.
  apply (put_then_get_returns_blob png "a.png" (images empty_world)).
  - exact mem_client_stores_what_is_put.
  - vm_compute. reflexivity.
Defined.

(** ** Reading a key back *)

Lemma string_get_app (a b : string) (c : ascii) :
  String.get (String.length a) (a +:+ String c b) = Some c.
Proof.
  induction a as [|x a IH]; [reflexivity |].
  rewrite string_app_cons. cbn [String.length String.get]. exact IH.
Qed.

(** X2: a key made by [generate_object_key] splits at a fixed offset, also
    when the file name itself contains ['-']: it is 33 characters longer
    than the file name, its first 32 characters are the hexadecimal token,
    character 32 is ['-'], and the rest is the file name.  So a key
    determines both its file name and its token: no two different
    (token, file name) pairs give the same key. *)
Theorem generate_object_key_parses `{Entropy St} (filename key : string)
    (s : St) :
  (base_generate_object_key filename s).1 = Return key →
  String.length key = 33 + String.length filename ∧
  String.substring 0 32 key = hexlify (token_bytes 16 s).1 ∧
  String.get 32 key = Some "-"%char ∧
  String.substring 33 (String.length filename) key = filename ∧
  (∀ filename' (s2 : St),
     (base_generate_object_key filename' s2).1 = Return key →
     filename' = filename ∧ (token_bytes 16 s2).1 = (token_bytes 16 s).1).
Proof.
  rewrite base_generate_object_key_eq. cbn [fst].
  pose proof (token_bytes_length 16 s) as Hlen.
  revert Hlen. generalize (token_bytes 16 s).1. intros tok Hlen Hkey.
  assert (key = hexlify tok +:+ "-" +:+ filename) as -> by congruence.
  clear Hkey.
  assert (String.length (hexlify tok) = 32) as Hhex
    by (rewrite hexlify_length, Hlen; reflexivity).
  split; [| split; [| split; [| split]]].
  - rewrite string_length_app, Hhex, string_length_app. reflexivity.
  - rewrite <- Hhex. apply substring_app_prefix.
  - rewrite <- Hhex. apply string_get_app.
  - rewrite <- string_app_assoc.
    replace 33 with (String.length (hexlify tok +:+ "-"))
      by (rewrite string_length_app, Hhex; reflexivity).
    apply substring_app_suffix.
  - intros filename' s2. rewrite base_generate_object_key_eq. cbn [fst].
    pose proof (token_bytes_length 16 s2) as Hlen2.
    revert Hlen2. generalize (token_bytes 16 s2).1. intros tok2 Hlen2 Hkey.
    assert (hexlify tok2 +:+ "-" +:+ filename'
            = hexlify tok +:+ "-" +:+ filename) as Heq by congruence.
    apply string_app_inv in Heq as [Htok Hrest];
      [| rewrite !hexlify_length; congruence].
    split.
    + rewrite !string_app_cons, !string_app_nil in Hrest. congruence.
    + now apply hexlify_inj.
Qed.

Lemma generate_object_key_parses_witness :
  String.length "000102030405060708090a0b0c0d0e0f-my-photo.jpg"
    = 33 + String.length "my-photo.jpg" ∧
  String.substring 0 32 "000102030405060708090a0b0c0d0e0f-my-photo.jpg"
    = hexlify (token_bytes 16 (images empty_world)).1 ∧
  String.get 32 "000102030405060708090a0b0c0d0e0f-my-photo.jpg"
    = Some "-"%char ∧
  String.substring 33 (String.length "my-photo.jpg")
    "000102030405060708090a0b0c0d0e0f-my-photo.jpg" = "my-photo.jpg" ∧
  (∀ filename' (s2 : S3State MemWorld),
     (base_generate_object_key filename' s2).1
       = Return "000102030405060708090a0b0c0d0e0f-my-photo.jpg" →
     filename' = "my-photo.jpg" ∧
     (token_bytes 16 s2).1 = (token_bytes 16 (images empty_world)).1).
Proof.
  apply (generate_object_key_parses "my-photo.jpg"
           "000102030405060708090a0b0c0d0e0f-my-photo.jpg"
           (images empty_world)).
  vm_compute. reflexivity.
Defined.

(** ** What the S3 operations raise, and when *)

(** X4: an operation of the S3 backend returns exactly when the client's
    call for it returns: key generation and the default hooks never fail,
    and no failure of the client is swallowed. *)
Theorem S3_returns_iff_client_succeeds `{Entropy W} (op : operation)
    (s : S3State W) :
  returned (run S3StorageBackend op s).1 = true ↔ client_failure op s = None.
Proof.
  destruct op as [key|obj filename|key]; cbn [run client_failure target_key].
  - rewrite bind_eq.
    change (get_object S3StorageBackend key s) with (S3_get_object key s).
    rewrite S3_get_object_eq.
    destruct (client_get_object (client s) (bucket_name s) key (outside s))
      as [[resp|cls cause] w']; cbn [fst failure_of returned]; [easy |].
    destruct (issubclass cls NoSuchKey); [easy |].
    destruct (issubclass cls ClientError); easy.
  - rewrite S3_put_object_eq. cbv zeta.
    change (generate_object_key S3StorageBackend filename s)
      with (base_generate_object_key filename s).
    rewrite base_generate_object_key_eq. cbn [fst snd].
    destruct (client_put_object _ _ _ obj _)
      as [[[]|cls cause] w']; cbn [fst failure_of returned]; [easy |].
    destruct (issubclass cls ClientError); easy.
  - rewrite S3_delete_object_eq.
    destruct (client_delete_object (client s) (bucket_name s) key (outside s))
      as [[[]|cls cause] w']; cbn [fst failure_of returned]; [easy |].
    destruct (issubclass cls ClientError); easy.
Qed.

(** X5: every exception an operation of the S3 backend raises comes from an
    exception of the client, and is determined by that one's class:
    [FileNotFoundError] for [NoSuchKey] on a get only; [StorageError] with
    the message "Error while <getting|putting|deleting> object (key: <key>).
    Error: <client message>" for any other [ClientError] (on put and delete
    also for [NoSuchKey]); the client's exception itself otherwise. *)
Theorem S3_raised_exception_classified `{Entropy W} (op : operation)
    (s : S3State W) (e : exception) :
  (run S3StorageBackend op s).1 = Raise e →
  ∃ cls cause,
    client_failure op s = Some (cls, cause) ∧
    e = if is_get op && issubclass cls NoSuchKey then FileNotFoundError
        else if issubclass cls ClientError then
          StorageError
            ("Error while " +:+ verb op +:+ " object (key: "
             +:+ target_key op s +:+ "). Error: " +:+ cause)
        else Foreign cls cause.
Proof.
  destruct op as [key|obj filename|key];
    cbn [run client_failure target_key is_get verb andb].
  - rewrite bind_eq.
    change (get_object S3StorageBackend key s) with (S3_get_object key s).
    rewrite S3_get_object_eq.
    destruct (client_get_object (client s) (bucket_name s) key (outside s))
      as [[resp|cls cause] w']; cbn [fst failure_of]; [discriminate |].
    intros Hraise. exists cls, cause. split; [reflexivity |].
    destruct (issubclass cls NoSuchKey);
      [injection Hraise as <-; reflexivity |].
    destruct (issubclass cls ClientError);
      injection Hraise as <-; reflexivity.
  - rewrite S3_put_object_eq. cbv zeta.
    change (generate_object_key S3StorageBackend filename s)
      with (base_generate_object_key filename s).
    rewrite base_generate_object_key_eq. cbn [fst snd].
    destruct (client_put_object _ _ _ obj _)
      as [[[]|cls cause] w']; cbn [fst failure_of]; [discriminate |].
    intros Hraise. exists cls, cause. split; [reflexivity |].
    destruct (issubclass cls ClientError);
      injection Hraise as <-; reflexivity.
  - rewrite S3_delete_object_eq.
    destruct (client_delete_object (client s) (bucket_name s) key (outside s))
      as [[[]|cls cause] w']; cbn [fst failure_of]; [discriminate |].
    intros Hraise. exists cls, cause. split; [reflexivity |].
    destruct (issubclass cls ClientError);
      injection Hraise as <-; reflexivity.
Qed.

Lemma S3_raised_exception_classified_witness :
  ∃ cls cause,
    client_failure (Delete "k") (images access_denied) = Some (cls, cause) ∧
    StorageError
      "Error while deleting object (key: k). Error: An error occurred (AccessDenied) when calling the operation: Access Denied"
    = if is_get (Delete "k") && issubclass cls NoSuchKey then FileNotFoundError
      else if issubclass cls ClientError then
        StorageError
          ("Error while " +:+ verb (Delete "k") +:+ " object (key: "
           +:+ target_key (Delete "k") (images access_denied)
           +:+ "). Error: " +:+ cause)
      else Foreign cls cause.
Proof.
  apply (S3_raised_exception_classified (Delete "k") (images access_denied)).
  vm_compute. reflexivity.
Defined.

(** ** One request per operation *)

Lemma spied_token_bytes_frame `{Entropy W} (n : nat)
    (s : S3State (W * list request)) :
  client (token_bytes n s).2 = client s ∧
  bucket_name (token_bytes n s).2 = bucket_name s ∧
  (outside (token_bytes n s).2).2 = (outside s).2.
Proof.
  revert s. induction n as [|n IH]; intros s; [now repeat split |].
  cbn [token_bytes].
  change (urandom_byte s)
    with (let (b, wl') :=
            (let (b, w') := urandom_byte (outside s).1 in
             (b, (w', (outside s).2))) in
          (b, mkS3State (client s) (bucket_name s) wl')).
  destruct (urandom_byte (outside s).1) as [b w'].
  specialize (IH (mkS3State (client s) (bucket_name s) (w', (outside s).2))).
  destruct (token_bytes n
              (mkS3State (client s) (bucket_name s) (w', (outside s).2)))
    as [bs s2].
  exact IH.
Qed.

(** X3: every [get_object], [put_object] and [delete_object] of the S3
    backend sends the client exactly one request, whatever the client
    answers (nothing is retried, nothing else is asked): it is addressed to
    the instance's bucket and carries the operation's key, and for a put the
    generated key and the blob. *)
Theorem S3_one_request_per_operation `{Entropy W} (c : S3Client W)
    (bucket : string) (op : operation) (w : W) (log : list request) :
  let s := mkS3State (spy c) bucket (w, log) in
  (outside (run S3StorageBackend op s).2).2 =
    log ++ [match op with
            | Get key => GetObject bucket key
            | Put obj _ => PutObject bucket (target_key op s) obj
            | Delete key => DeleteObject bucket key
            end].
Proof.
  cbv zeta. destruct op as [key|obj filename|key]; cbn [run target_key].
  - rewrite bind_eq.
    change (get_object S3StorageBackend key ?st) with (S3_get_object key st).
    rewrite S3_get_object_eq.
    cbn [client bucket_name outside spy client_get_object fst snd].
    destruct (client_get_object c bucket key w) as [[resp|cls msg] w'];
      [reflexivity |].
    destruct (issubclass cls NoSuchKey); [reflexivity |].
    destruct (issubclass cls ClientError); reflexivity.
  - rewrite S3_put_object_eq. cbv zeta.
    change (generate_object_key S3StorageBackend filename ?st)
      with (base_generate_object_key filename st).
    rewrite base_generate_object_key_eq. cbn [fst].
    pose proof (spied_token_bytes_frame 16
                  (mkS3State (spy c) bucket (w, log))) as (Hc & Hb & Hlog).
    cbn [client bucket_name outside snd] in Hc, Hb, Hlog.
    set (key := hexlify (token_bytes 16 _).1 +:+ "-" +:+ filename).
    set (s1 := (token_bytes 16 _).2) in *.
    rewrite Hc, Hb. cbn [spy client_put_object]. rewrite Hlog.
    destruct (client_put_object c bucket key obj (outside s1).1)
      as [[[]|cls msg] w']; [reflexivity |].
    destruct (issubclass cls ClientError); reflexivity.
  - rewrite S3_delete_object_eq.
    cbn [client bucket_name outside spy client_delete_object fst snd].
    destruct (client_delete_object c bucket key w) as [[[]|cls msg] w'];
      [reflexivity |].
    destruct (issubclass cls ClientError); reflexivity.
Qed.

Example put_object_sends_one_request_when_denied :
  (outside (run S3StorageBackend (Put png "photo.jpg")
              (mkS3State (spy mem_client) "images" (access_denied, []))).2).2
  = [PutObject "images" "000102030405060708090a0b0c0d0e0f-photo.jpg" png].
Proof. vm_compute. reflexivity. Qed.

(** ** Deleting *)

Lemma mem_client_missing_after_delete : missing_after_delete mem_client.
Proof.
  intros bucket key w w'.
  cbn [mem_client client_delete_object client_get_object].
  unfold mem_delete_object, mem_get_object.
  destruct w as [objs [[cls msg]|] tp pos]; cbn [outage objects tape tape_pos];
    [discriminate |].
  intros [= <-]. cbn [outage objects]. rewrite lookup_delete_eq.
  now exists no_such_key_message.
Qed.

Lemma S3_get_object_fst {W} (key : string) (s : S3State W) :
  (S3_get_object key s).1 =
    match (client_get_object (client s) (bucket_name s) key (outside s)).1 with
    | Ok resp => Return (mkBytesIO (Body resp))
    | Fail cls msg =>
        if issubclass cls NoSuchKey then Raise FileNotFoundError
        else if issubclass cls ClientError then
          Raise (StorageError
            ("Error while getting object (key: " +:+ key +:+ "). Error: " +:+ msg))
        else Raise (Foreign cls msg)
    end.
Proof.
  rewrite S3_get_object_eq.
  now destruct (client_get_object (client s) (bucket_name s) key (outside s)).
Qed.

(** X6: on the S3 backend, after a [delete_object] that returned,
    [get_object] on the same key raises [FileNotFoundError], provided the
    store reports a deleted key as missing. *)
Theorem delete_then_get_not_found `{Entropy W} (key : string)
    (s s' : S3State W) :
  missing_after_delete (client s) →
  delete_object S3StorageBackend key s = (Return VNone, s') →
  (get_object S3StorageBackend key s').1 = Raise FileNotFoundError.
Proof.
  intros Hlaw. rewrite S3_delete_object_eq.
  destruct (client_delete_object (client s) (bucket_name s) key (outside s))
    as [[[]|cls msg] w'] eqn:Hclient.
  - intros [= <-].
    change (get_object S3StorageBackend key ?st) with (S3_get_object key st).
    rewrite S3_get_object_fst. cbn [client bucket_name outside].
    destruct (Hlaw _ _ _ _ Hclient) as [msg ->]. reflexivity.
  - destruct (issubclass cls ClientError); discriminate.
Qed.

Lemma delete_then_get_not_found_witness :
  (get_object S3StorageBackend "000102030405060708090a0b0c0d0e0f-a.png"
     (delete_object S3StorageBackend "000102030405060708090a0b0c0d0e0f-a.png"
        (put_object S3StorageBackend png "a.png" (images empty_world)).2).2).1
    = Raise FileNotFoundError.
Proof.
  apply (delete_then_get_not_found "000102030405060708090a0b0c0d0e0f-a.png"
           (put_object S3StorageBackend png "a.png" (images empty_world)).2).
  - exact mem_client_missing_after_delete.
  - vm_compute. reflexivity.
Defined.

(** X7: take a subclass of the S3 backend whose post-delete hook raises [e]
    after the deletion has succeeded.  Then [delete_object] raises [e] and
    ends in the state the hook left: the deletion is not undone.  With a
    store that reports a deleted key as missing, [get_object] on the key
    raises [FileNotFoundError] once the transfer step is done, and still
    does after the failed [delete_object] when the hook did not touch the
    store or the instance. *)
Theorem post_delete_failure_keeps_deletion `{Entropy W}
    (post_put post_delete : string → M (S3State W) unit)
    (key : string) (s s1 s2 : S3State W) (e : exception) :
  let backend := with_hooks S3StorageBackend post_put post_delete in
  missing_after_delete (client s) →
  perform_delete_object backend key s = (Return tt, s1) →
  post_delete_object backend key s1 = (Raise e, s2) →
  delete_object backend key s = (Raise e, s2) ∧
  (get_object backend key s1).1 = Raise FileNotFoundError ∧
  (client s2 = client s1 → bucket_name s2 = bucket_name s1 →
   outside s2 = outside s1 →
   (get_object backend key (delete_object backend key s).2).1
     = Raise FileNotFoundError).
Proof.
  intros backend Hlaw Hdel Hhook.
  assert (delete_object backend key s = (Raise e, s2)) as Hraise
    by (rewrite delete_object_eq, Hdel, Hhook; reflexivity).
  assert ((get_object backend key s1).1 = Raise FileNotFoundError) as Hgone.
  { change (get_object backend key s1) with (S3_get_object key s1).
    rewrite S3_get_object_fst.
    change (perform_delete_object backend key s)
      with (S3_perform_delete_object key s) in Hdel.
    rewrite S3_perform_delete_object_eq in Hdel.
    destruct (client_delete_object (client s) (bucket_name s) key (outside s))
      as [[[]|cls msg] w'] eqn:Hclient.
    - injection Hdel as <-. cbn [client bucket_name outside].
      destruct (Hlaw _ _ _ _ Hclient) as [msg ->]. reflexivity.
    - destruct (issubclass cls ClientError); discriminate Hdel. }
  split; [exact Hraise |]. split; [exact Hgone |].
  intros Hc Hb Ho. rewrite Hraise. cbn [snd].
  change (get_object backend key s2) with (S3_get_object key s2).
  change (get_object backend key s1) with (S3_get_object key s1) in Hgone.
  rewrite S3_get_object_fst in Hgone |- *.
  now rewrite Hc, Hb, Ho.
Qed.

Lemma post_delete_failure_keeps_deletion_witness :
  delete_object (with_hooks S3StorageBackend base_post_put_object failing_hook)
    "000102030405060708090a0b0c0d0e0f-a.png"
    (put_object S3StorageBackend png "a.png" (images empty_world)).2
  = (Raise (Foreign (OtherClass "RuntimeError") "hook failed"),
     images (mkMemWorld ∅ None counting_tape 16))
  ∧ (get_object
       (with_hooks S3StorageBackend base_post_put_object failing_hook)
       "000102030405060708090a0b0c0d0e0f-a.png"
       (delete_object
          (with_hooks S3StorageBackend base_post_put_object failing_hook)
          "000102030405060708090a0b0c0d0e0f-a.png"
          (put_object S3StorageBackend png "a.png" (images empty_world)).2).2).1
    = Raise FileNotFoundError.
Proof.
  destruct (post_delete_failure_keeps_deletion base_post_put_object
              failing_hook "000102030405060708090a0b0c0d0e0f-a.png"
              (put_object S3StorageBackend png "a.png" (images empty_world)).2
              (images (mkMemWorld ∅ None counting_tape 16))
              (images (mkMemWorld ∅ None counting_tape 16))
              (Foreign (OtherClass "RuntimeError") "hook failed"))
    as (Hraise & _ & Hgone).
  - exact mem_client_missing_after_delete.
  - vm_compute. reflexivity.
  - vm_compute. reflexivity.
  - split; [exact Hraise | apply Hgone; reflexivity].
Defined.

(** ** Successive puts *)

Lemma mem_client_put_keeps_other_keys : put_keeps_other_keys mem_client.
Proof.
  intros bucket key key' body w w' Hne.
  cbn [mem_client client_put_object client_get_object].
  unfold mem_put_object, mem_get_object.
  destruct w as [objs [[cls msg]|] tp pos]; cbn [outage objects tape tape_pos];
    [discriminate |].
  intros [= <-]. cbn [outage objects].
  rewrite lookup_insert_ne by congruence.
  now destruct (objs !! (bucket, key')).
Qed.

Lemma mem_client_urandom_keeps_replies : urandom_keeps_replies mem_client.
Proof.
  intros bucket key [objs out tp pos].
  cbn [mem_client client_get_object]. unfold mem_get_object.
  cbn [urandom_byte MemWorld_entropy snd outage objects].
  destruct out as [[cls msg]|]; [reflexivity |].
  now destruct (objs !! (bucket, key)).
Qed.

Lemma token_bytes_keeps_replies `{Entropy W} (c : S3Client W) (n : nat)
    (s : S3State W) (bucket key : string) :
  urandom_keeps_replies c →
  (client_get_object c bucket key (outside (token_bytes n s).2)).1
    = (client_get_object c bucket key (outside s)).1.
Proof.
  intros Hlaw. revert s. induction n as [|n IH]; intros s; [reflexivity |].
  cbn [token_bytes].
  change (urandom_byte s)
    with (let (b, w') := urandom_byte (outside s) in
          (b, mkS3State (client s) (bucket_name s) w')).
  specialize (Hlaw bucket key (outside s)).
  destruct (urandom_byte (outside s)) as [b w'].
  specialize (IH (mkS3State (client s) (bucket_name s) w')).
  destruct (token_bytes n (mkS3State (client s) (bucket_name s) w'))
    as [bs s2].
  cbn [snd outside] in *. congruence.
Qed.

Lemma keys_differ_when_tokens_differ (t1 t2 : list byte) (filename : string) :
  length t1 = length t2 → t1 ≠ t2 →
  hexlify t1 +:+ "-" +:+ filename ≠ hexlify t2 +:+ "-" +:+ filename.
Proof.
  intros Hlen Hne Heq. apply Hne.
  apply string_app_inv in Heq as [Heq _]; [now apply hexlify_inj |].
  rewrite !hexlify_length. congruence.
Qed.

(** X8: on the S3 backend two successive [put_object] calls with the same
    file name whose tokens differ store two objects: afterwards
    [get_object] returns the first blob under the first key and the second
    blob under the second key, so the second put does not overwrite the
    first.  (For a client whose store hands back what was put, leaves other
    keys alone on an upload, and is not affected by drawing random
    bytes.) *)
Theorem successive_puts_keep_both `{Entropy W} (obj1 obj2 : BytesIO)
    (filename : string) (s sA sB : S3State W) :
  stores_what_is_put (client s) →
  put_keeps_other_keys (client s) →
  urandom_keeps_replies (client s) →
  put_object S3StorageBackend obj1 filename s = (Return VNone, sA) →
  put_object S3StorageBackend obj2 filename sA = (Return VNone, sB) →
  (token_bytes 16 s).1 ≠ (token_bytes 16 sA).1 →
  (get_object S3StorageBackend (target_key (Put obj1 filename) s) sB).1
    = Return obj1 ∧
  (get_object S3StorageBackend (target_key (Put obj2 filename) sA) sB).1
    = Return obj2.
Proof.
  intros Hstore Hother Hrandom Hput1 Hput2 Htok.
  cbn [target_key].
  change (generate_object_key S3StorageBackend filename ?st)
    with (base_generate_object_key filename st).
  rewrite !base_generate_object_key_eq. cbn [fst].
  rewrite S3_put_object_eq in Hput1. cbv zeta in Hput1.
  pose proof (S3_token_bytes_frame 16 s) as [Hc1 Hb1].
  pose proof (token_bytes_length 16 s) as Hlen1.
  destruct (token_bytes 16 s) as [tok1 s1]. cbn [fst snd] in *.
  rewrite Hc1, Hb1 in Hput1.
  destruct (client_put_object (client s) (bucket_name s)
              (hexlify tok1 +:+ "-" +:+ filename) obj1 (outside s1))
    as [[[]|cls msg] wA] eqn:Hclient1;
    [| destruct (issubclass cls ClientError); discriminate Hput1].
  assert (sA = mkS3State (client s) (bucket_name s) wA) as -> by congruence.
  clear Hput1.
  rewrite S3_put_object_eq in Hput2. cbv zeta in Hput2.
  pose proof (S3_token_bytes_frame 16 (mkS3State (client s) (bucket_name s) wA))
    as [Hc2 Hb2].
  pose proof (token_bytes_length 16 (mkS3State (client s) (bucket_name s) wA))
    as Hlen2.
  pose proof (λ key, token_bytes_keeps_replies (client s) 16
                       (mkS3State (client s) (bucket_name s) wA)
                       (bucket_name s) key Hrandom) as Hdraw.
  destruct (token_bytes 16 (mkS3State (client s) (bucket_name s) wA))
    as [tok2 s2].
  cbn [fst snd client bucket_name outside] in *.
  rewrite Hc2, Hb2 in Hput2.
  destruct (client_put_object (client s) (bucket_name s)
              (hexlify tok2 +:+ "-" +:+ filename) obj2 (outside s2))
    as [[[]|cls msg] wB] eqn:Hclient2;
    [| destruct (issubclass cls ClientError); discriminate Hput2].
  assert (sB = mkS3State (client s) (bucket_name s) wB) as -> by congruence.
  clear Hput2.
  assert (hexlify tok2 +:+ "-" +:+ filename
          ≠ hexlify tok1 +:+ "-" +:+ filename) as Hkeys
    by (apply keys_differ_when_tokens_differ; congruence).
  change (get_object S3StorageBackend ?key ?st) with (S3_get_object key st).
  rewrite !S3_get_object_fst. cbn [client bucket_name outside].
  split.
  - rewrite (Hother _ _ _ _ _ _ Hkeys Hclient2), Hdraw.
    rewrite (Hstore _ _ _ _ _ Hclient1). cbn [fst Body]. now destruct obj1.
  - rewrite (Hstore _ _ _ _ _ Hclient2). cbn [fst Body]. now destruct obj2.
Qed.

Lemma successive_puts_keep_both_witness :
  (get_object S3StorageBackend
     (target_key (Put png "a.png") (images empty_world))
     (put_object S3StorageBackend (mkBytesIO [x47; x49; x46]) "a.png"
        (put_object S3StorageBackend png "a.png" (images empty_world)).2).2).1
    = Return png ∧
  (get_object S3StorageBackend
     (target_key (Put (mkBytesIO [x47; x49; x46]) "a.png")
        (put_object S3StorageBackend png "a.png" (images empty_world)).2)
     (put_object S3StorageBackend (mkBytesIO [x47; x49; x46]) "a.png"
        (put_object S3StorageBackend png "a.png" (images empty_world)).2).2).1
    = Return (mkBytesIO [x47; x49; x46]).
Proof.
  apply (successive_puts_keep_both png (mkBytesIO [x47; x49; x46]) "a.png"
           (images empty_world)
           (put_object S3StorageBackend png "a.png" (images empty_world)).2).
  - exact mem_client_stores_what_is_put.
  - exact mem_client_put_keeps_other_keys.
  - exact mem_client_urandom_keeps_replies.
  - vm_compute. reflexivity.
  - vm_compute. reflexivity.
  - vm_compute. discriminate.
Defined.
